(** * bagels-quick: the command-line companion of the Bagels expense tracker

    A shallow embedding of [src/bagels_quick/cli.py].  The three SQL tables
    the tool reads and writes ([account], [category], [record]) are lists of
    rows in table order, the JSON configuration file is a small variant
    type, and every command is a function in a state-and-error monad over
    the [world] made of the database, the configuration file and the clock.

    Amounts are Python floats in the source.  They are modelled by exact
    rationals ([Q]); balances are compared with [==].  The database file
    is taken to exist, so that [get_connection] succeeds; what the commands
    print is left out. *)

From Stdlib Require Import ZArith QArith Bool List Ascii String Lia.
From Stdlib Require Import Permutation.
Import ListNotations.

Open Scope string_scope.
Open Scope Z_scope.

(** ** Text: SQLite's LOWER, [=] and LIKE on ASCII text *)

Module Sql.

(** [LOWER] folds the 26 ASCII capitals only. *)
Definition lower_ascii (c : ascii) : ascii :=
  let n := nat_of_ascii c in
  if ((65 <=? n) && (n <=? 90))%nat then ascii_of_nat (n + 32) else c.

Fixpoint LOWER (s : string) : string :=
  match s with
  | EmptyString => EmptyString
  | String c s' => String (lower_ascii c) (LOWER s')
  end.

(** [like p s] is [s LIKE p]: in the pattern a percent sign matches any run
    of characters (also the empty one), an underscore matches exactly one
    character, and every other character matches itself up to ASCII case.
    The queries of the tool give no ESCAPE clause. *)
Fixpoint like (p : string) : string -> bool :=
  match p with
  | EmptyString =>
      fun s => match s with EmptyString => true | String _ _ => false end
  | String c p' =>
      if Ascii.eqb c "%" then
        fix skip (s : string) : bool :=
          like p' s
          || match s with
             | EmptyString => false
             | String _ s' => skip s'
             end
      else if Ascii.eqb c "_" then
        fun s =>
          match s with
          | EmptyString => false
          | String _ s' => like p' s'
          end
      else
        fun s =>
          match s with
          | EmptyString => false
          | String d s' =>
              Ascii.eqb (lower_ascii c) (lower_ascii d) && like p' s'
          end
  end.

(** [COALESCE(SUM(x), 0)] *)
Definition SUM (xs : list Q) : Q := fold_left Qplus xs 0%Q.

End Sql.

Import Sql.

(** ** Substrings, as the specification words the partial match *)

Fixpoint prefix_nocase (p s : string) : bool :=
  match p, s with
  | EmptyString, _ => true
  | String _ _, EmptyString => false
  | String c p', String d s' =>
      Ascii.eqb (lower_ascii c) (lower_ascii d) && prefix_nocase p' s'
  end.

Fixpoint contains_nocase (p s : string) : bool :=
  prefix_nocase p s
  || match s with
     | EmptyString => false
     | String _ s' => contains_nocase p s'
     end.

Definition is_wildcard (c : ascii) : bool :=
  Ascii.eqb c "%" || Ascii.eqb c "_".

Fixpoint wildcard_free (s : string) : bool :=
  match s with
  | EmptyString => true
  | String c s' => negb (is_wildcard c) && wildcard_free s'
  end.

(** ** Data model *)

(** A naive [datetime]: microseconds since 0001-01-01 00:00:00. *)
Definition datetime := Z.

Record account := mkAccount {
  a_id : Z;
  a_name : string;
  a_description : option string;
  a_beginningBalance : Q;
  a_updatedAt : datetime;
  a_deletedAt : option datetime
}.

Record category := mkCategory {
  c_id : Z;
  c_name : string;
  c_deletedAt : option datetime
}.

Record record := mkRecord {
  r_id : Z;
  r_createdAt : datetime;
  r_updatedAt : datetime;
  r_label : string;
  r_amount : Q;
  r_date : datetime;
  r_accountId : Z;
  r_categoryId : option Z;
  r_isInProgress : bool;
  r_isIncome : bool;
  r_isTransfer : bool;
  r_transferToAccountId : option Z
}.

(** Values of the JSON configuration file. *)
Inductive value :=
| VNone
| VBool (b : bool)
| VStr (s : string).

(** A Python [dict] with string keys, in insertion order. *)
Definition dict := list (string * value).

(** The configuration file: absent, present but unreadable or not JSON, or
    holding a JSON object. *)
Inductive file :=
| Missing
| Garbage
| Saved (members : list (string * value)).

Record world := mkWorld {
  accounts : list account;
  categories : list category;
  records : list record;
  config_file : file;
  clock : nat -> datetime;   (* successive readings of [datetime.now()] *)
  tick : nat
}.

(** ** Errors and the command monad *)

Inductive error :=
| MultipleCategories (search : string) (names : list string)
| MultipleAccounts (search : string) (names : list string)
| NoAccountsFound
| AmountMustBePositive
| AccountNotFound (search : string)
| CategoryNotFound (search : string)
| SourceAccountNotFound (search : string)
| DestinationAccountNotFound (search : string)
| SameAccount
| InvalidDateFormat
| NothingToEdit
| UnknownConfigKey (key : string)
| NotTrueOrFalse
| TypeError.   (* Python's own: [fetchone()[0]] on no row *)

Inductive res (A : Type) :=
| Ok (a : A)
| Raise (e : error).
Arguments Ok {A} a.
Arguments Raise {A} e.

Definition M (A : Type) : Type := world -> res A * world.

Definition ret {A} (a : A) : M A := fun w => (Ok a, w).
Definition raise {A} (e : error) : M A := fun w => (Raise e, w).
Definition bind {A B} (m : M A) (k : A -> M B) : M B :=
  fun w =>
    match m w with
    | (Ok a, w') => k a w'
    | (Raise e, w') => (Raise e, w')
    end.
Definition get : M world := fun w => (Ok w, w).

Declare Scope cmd_scope.
Delimit Scope cmd_scope with cmd.
Notation "x <- m ;; k" := (bind m (fun x => k))
  (at level 100, m at next level, right associativity) : cmd_scope.
Notation "' p <- m ;; k" := (bind m (fun x => match x with p => k end))
  (at level 100, p pattern, m at next level, right associativity) : cmd_scope.
Notation "m ;;; k" := (bind m (fun _ => k))
  (at level 100, right associativity) : cmd_scope.
Open Scope cmd_scope.

(** [datetime.now()]: the next reading of the clock. *)
Definition datetime_now : M datetime :=
  fun w =>
    (Ok (clock w (tick w)),
     mkWorld (accounts w) (categories w) (records w) (config_file w)
             (clock w) (S (tick w))).

(** ** Small Python and SQL idioms *)

Definition fetchone {A} (rows : list A) : option A := hd_error rows.

Definition is_null {A} (o : option A) : bool :=
  match o with None => true | Some _ => false end.

(** Truthiness of an optional [str] argument. *)
Definition truthy (o : option string) : option string :=
  match o with
  | Some s => if String.eqb s "" then None else Some s
  | None => None
  end.

Definition opt_Z_eqb (o : option Z) (z : Z) : bool :=
  match o with Some y => Z.eqb y z | None => false end.

(** ** Config management *)

Fixpoint dict_get (d : dict) (k : string) : option value :=
  match d with
  | [] => None
  | (k', v) :: d' => if String.eqb k' k then Some v else dict_get d' k
  end.

(** [d[k] = v]: an existing key keeps its place, a new key goes last. *)
Fixpoint dict_set (d : dict) (k : string) (v : value) : dict :=
  match d with
  | [] => [(k, v)]
  | (k', v') :: d' =>
      if String.eqb k' k then (k', v) :: d' else (k', v') :: dict_set d' k v
  end.

(** [d.update(other)] *)
Definition dict_update (d other : dict) : dict :=
  fold_left (fun acc kv => dict_set acc (fst kv) (snd kv)) other d.

(** [json.load] on the members of a JSON object: a [dict] in which the last
    of several members with one name wins. *)
Definition json_load (members : list (string * value)) : dict :=
  dict_update [] members.

(** [d[k]] for a key known to be present ([VNone] stands for the KeyError,
    which [load_config_has_settings] shows not to happen on the four
    settings). *)
Definition index (d : dict) (k : string) : value :=
  match dict_get d k with Some v => v | None => VNone end.

Definition value_truthy (v : value) : bool :=
  match v with
  | VNone => false
  | VBool b => b
  | VStr s => negb (String.eqb s "")
  end.

(** The text a truthy setting is searched as.  The tool itself only ever
    stores a name or null under [default_account] and [default_category];
    a boolean there is rendered as Python's [str] does. *)
Definition search_text (v : value) : option string :=
  match v with
  | VNone => None
  | VBool b => if b then Some "True" else None
  | VStr s => if String.eqb s "" then None else Some s
  end.

Definition defaults : dict :=
  [ ("default_account", VNone);
    ("default_category", VNone);
    ("confirm_undo", VBool true);
    ("show_balance_after_add", VBool false) ].

Definition load_config (f : file) : dict :=
  match f with
  | Saved members => dict_update defaults (json_load members)
  | Garbage => defaults
  | Missing => defaults
  end.

Definition get_config : M dict :=
  fun w => (Ok (load_config (config_file w)), w).

Definition set_config_file (f : file) (w : world) : world :=
  mkWorld (accounts w) (categories w) (records w) f (clock w) (tick w).

Definition save_config (config : dict) : M unit :=
  fun w => (Ok tt, set_config_file (Saved config) w).

(** ** Database helpers *)

(** [ORDER BY]: a stable insertion sort; [leb x y] says that [x] may come
    before [y]. *)
Fixpoint insert_by {A} (leb : A -> A -> bool) (x : A) (l : list A) : list A :=
  match l with
  | [] => [x]
  | y :: l' => if leb x y then x :: l else y :: insert_by leb x l'
  end.

Definition order_by {A} (leb : A -> A -> bool) (l : list A) : list A :=
  fold_right (insert_by leb) [] l.

Definition by_id (a b : account) : bool := a_id a <=? a_id b.
Definition by_createdAt_desc (a b : record) : bool :=
  r_createdAt b <=? r_createdAt a.

Definition query {A} (q : world -> res A) : M A := fun w => (q w, w).

Definition find_category (w : world) (search : string)
  : res (option (Z * string)) :=
  let live c := is_null (c_deletedAt c) in
  match fetchone
          (filter (fun c => String.eqb (LOWER (c_name c)) (LOWER search)
                            && live c) (categories w)) with
  | Some c => Ok (Some (c_id c, c_name c))
  | None =>
      let results :=
        filter (fun c => like (LOWER ("%" ++ search ++ "%")) (LOWER (c_name c))
                         && live c) (categories w) in
      match results with
      | [] => Ok None
      | [c] => Ok (Some (c_id c, c_name c))
      | _ => Raise (MultipleCategories search (map c_name results))
      end
  end.

Definition find_account (w : world) (search : string)
  : res (option (Z * string)) :=
  let live a := is_null (a_deletedAt a) in
  match fetchone
          (filter (fun a => String.eqb (LOWER (a_name a)) (LOWER search)
                            && live a) (accounts w)) with
  | Some a => Ok (Some (a_id a, a_name a))
  | None =>
      let results :=
        filter (fun a => like (LOWER ("%" ++ search ++ "%")) (LOWER (a_name a))
                         && live a) (accounts w) in
      match results with
      | [] => Ok None
      | [a] => Ok (Some (a_id a, a_name a))
      | _ => Raise (MultipleAccounts search (map a_name results))
      end
  end.

(** The two queries [get_default_account] falls back on. *)
Definition first_non_outside (w : world) : option account :=
  fetchone
    (order_by by_id
       (filter (fun a => is_null (a_deletedAt a)
                         && negb (String.eqb (a_name a) "Outside source"))
               (accounts w))).

Definition first_account (w : world) : option account :=
  fetchone
    (order_by by_id (filter (fun a => is_null (a_deletedAt a)) (accounts w))).

Definition default_account_fallback (w : world) : res (Z * string) :=
  match first_non_outside w with
  | Some a => Ok (a_id a, a_name a)
  | None =>
      match first_account w with
      | Some a => Ok (a_id a, a_name a)
      | None => Raise NoAccountsFound
      end
  end.

Definition get_default_account (w : world) : res (Z * string) :=
  let config := load_config (config_file w) in
  match search_text (index config "default_account") with
  | Some name =>
      match find_account w name with
      | Ok (Some result) => Ok result
      | Ok None => default_account_fallback w
      | Raise e => Raise e
      end
  | None => default_account_fallback w
  end.

Definition get_default_category (w : world) : res (option (Z * string)) :=
  let config := load_config (config_file w) in
  match search_text (index config "default_category") with
  | Some name => find_category w name
  | None => Ok None
  end.

(** ** [datetime.strptime(s, "%Y-%m-%d")]

    The format compiles to the regular expression
    [(\d\d\d\d)-(1[0-2]|0[1-9]|[1-9])-(3[01]|[12]\d|0[1-9]|[1-9]| [1-9])];
    the whole string has to be consumed and the three numbers have to be a
    date of the proleptic Gregorian calendar from year 1 on.  [None] stands
    for the ValueError. *)

Module Strptime.

Definition digit_of (c : ascii) : option Z :=
  let n := nat_of_ascii c in
  if ((48 <=? n) && (n <=? 57))%nat then Some (Z.of_nat (n - 48)) else None.

Definition digit_in (lo hi : Z) (c : ascii) : option Z :=
  match digit_of c with
  | Some d => if (lo <=? d) && (d <=? hi) then Some d else None
  | None => None
  end.

Definition alt {A} (x y : option A) : option A :=
  match x with Some _ => x | None => y end.

Definition year (s : string) : option (Z * string) :=
  match s with
  | String a (String b (String c (String d rest))) =>
      match digit_of a, digit_of b, digit_of c, digit_of d with
      | Some x, Some y, Some z, Some t =>
          Some (1000 * x + 100 * y + 10 * z + t, rest)
      | _, _, _, _ => None
      end
  | _ => None
  end.

(** A first character in [lo1..hi1] worth ten times its value, then a
    digit in [lo2..hi2]. *)
Definition two_digits (lo1 hi1 lo2 hi2 : Z) (s : string)
  : option (Z * string) :=
  match s with
  | String a (String b rest) =>
      match digit_in lo1 hi1 a, digit_in lo2 hi2 b with
      | Some x, Some y => Some (10 * x + y, rest)
      | _, _ => None
      end
  | _ => None
  end.

Definition one_digit (s : string) : option (Z * string) :=
  match s with
  | String a rest =>
      match digit_in 1 9 a with
      | Some x => Some (x, rest)
      | None => None
      end
  | EmptyString => None
  end.

Definition dash {A} (r : option (A * string)) : option (A * string) :=
  match r with
  | Some (x, String "-" rest) => Some (x, rest)
  | _ => None
  end.

(** The month and the dash after it: the alternatives are tried in order,
    each with what follows. *)
Definition month_dash (s : string) : option (Z * string) :=
  alt (dash (two_digits 1 1 0 2 s))
      (alt (dash (two_digits 0 0 1 9 s)) (dash (one_digit s))).

Definition space_digit (s : string) : option (Z * string) :=
  match s with
  | String " " rest => one_digit rest
  | _ => None
  end.

(** The day: the first alternative that matches; nothing may remain. *)
Definition day_end (s : string) : option Z :=
  match alt (two_digits 3 3 0 1 s)
            (alt (two_digits 1 2 0 9 s)
                 (alt (two_digits 0 0 1 9 s)
                      (alt (one_digit s) (space_digit s)))) with
  | Some (d, EmptyString) => Some d
  | _ => None
  end.

Definition is_leap (y : Z) : bool :=
  (y mod 4 =? 0) && (negb (y mod 100 =? 0) || (y mod 400 =? 0)).

Definition days_in_month (y m : Z) : Z :=
  if m =? 2 then (if is_leap y then 29 else 28)
  else if (m =? 4) || (m =? 6) || (m =? 9) || (m =? 11) then 30
  else 31.

Definition days_before_year (y : Z) : Z :=
  let p := y - 1 in p * 365 + p / 4 - p / 100 + p / 400.

Definition days_before_month (y m : Z) : Z :=
  nth (Z.to_nat (m - 1))
      [0; 31; 59; 90; 120; 151; 181; 212; 243; 273; 304; 334] 0
  + (if (2 <? m) && is_leap y then 1 else 0).

(** Midnight of a date, in microseconds since 0001-01-01. *)
Definition midnight (y m d : Z) : datetime :=
  (days_before_year y + days_before_month y m + d - 1) * 86400000000.

Definition strptime (s : string) : option datetime :=
  match dash (year s) with
  | Some (y, s1) =>
      match month_dash s1 with
      | Some (m, s2) =>
          match day_end s2 with
          | Some d =>
              if (1 <=? y) && (d <=? days_in_month y m)
              then Some (midnight y m d) else None
          | None => None
          end
      | None => None
      end
  | None => None
  end.

End Strptime.

Import Strptime.

(** ** Ledger accessor *)

Definition set_records (rs : list record) (w : world) : world :=
  mkWorld (accounts w) (categories w) rs (config_file w) (clock w) (tick w).

Definition set_accounts (accs : list account) (w : world) : world :=
  mkWorld accs (categories w) (records w) (config_file w) (clock w) (tick w).

(** The row id SQLite gives a new row: one more than the largest in use. *)
Definition next_rowid (ids : list Z) : Z :=
  match ids with
  | [] => 1
  | i :: rest => fold_left Z.max rest i + 1
  end.

(** [INSERT INTO record (...) VALUES (...)]; [row] is the new row but for
    its id. *)
Definition insert_record (row : Z -> record) : M unit :=
  fun w =>
    (Ok tt,
     set_records (records w ++ [row (next_rowid (map r_id (records w)))]) w).

(** [DELETE FROM record WHERE id = ?] *)
Definition delete_record (record_id : Z) : M unit :=
  fun w =>
    (Ok tt,
     set_records (filter (fun r => negb (r_id r =? record_id)) (records w)) w).

(** The assignments of an [UPDATE record SET ...]. *)
Inductive assignment :=
| SetAmount (amount : Q)
| SetLabel (label : string)
| SetCategoryId (id : Z)
| SetAccountId (id : Z)
| SetDate (date : datetime)
| SetIsIncome (is_income : bool)
| SetUpdatedAt (now : datetime).

Definition assign (r : record) (u : assignment) : record :=
  match u with
  | SetAmount x =>
      mkRecord (r_id r) (r_createdAt r) (r_updatedAt r) (r_label r) x
               (r_date r) (r_accountId r) (r_categoryId r) (r_isInProgress r)
               (r_isIncome r) (r_isTransfer r) (r_transferToAccountId r)
  | SetLabel x =>
      mkRecord (r_id r) (r_createdAt r) (r_updatedAt r) x (r_amount r)
               (r_date r) (r_accountId r) (r_categoryId r) (r_isInProgress r)
               (r_isIncome r) (r_isTransfer r) (r_transferToAccountId r)
  | SetCategoryId x =>
      mkRecord (r_id r) (r_createdAt r) (r_updatedAt r) (r_label r) (r_amount r)
               (r_date r) (r_accountId r) (Some x) (r_isInProgress r)
               (r_isIncome r) (r_isTransfer r) (r_transferToAccountId r)
  | SetAccountId x =>
      mkRecord (r_id r) (r_createdAt r) (r_updatedAt r) (r_label r) (r_amount r)
               (r_date r) x (r_categoryId r) (r_isInProgress r)
               (r_isIncome r) (r_isTransfer r) (r_transferToAccountId r)
  | SetDate x =>
      mkRecord (r_id r) (r_createdAt r) (r_updatedAt r) (r_label r) (r_amount r)
               x (r_accountId r) (r_categoryId r) (r_isInProgress r)
               (r_isIncome r) (r_isTransfer r) (r_transferToAccountId r)
  | SetIsIncome x =>
      mkRecord (r_id r) (r_createdAt r) (r_updatedAt r) (r_label r) (r_amount r)
               (r_date r) (r_accountId r) (r_categoryId r) (r_isInProgress r)
               x (r_isTransfer r) (r_transferToAccountId r)
  | SetUpdatedAt x =>
      mkRecord (r_id r) (r_createdAt r) x (r_label r) (r_amount r)
               (r_date r) (r_accountId r) (r_categoryId r) (r_isInProgress r)
               (r_isIncome r) (r_isTransfer r) (r_transferToAccountId r)
  end.

(** [UPDATE record SET <updates> WHERE id = ?] *)
Definition update_record (updates : list assignment) (record_id : Z) : M unit :=
  fun w =>
    (Ok tt,
     set_records
       (map (fun r => if r_id r =? record_id
                      then fold_left assign updates r else r)
            (records w)) w).

(** [UPDATE account SET beginningBalance = ?, updatedAt = ? WHERE id = ?] *)
Definition update_beginning (new_beginning : Q) (now : datetime) (acc_id : Z)
  : M unit :=
  fun w =>
    (Ok tt,
     set_accounts
       (map (fun a => if a_id a =? acc_id
                      then mkAccount (a_id a) (a_name a) (a_description a)
                                     new_beginning now (a_deletedAt a)
                      else a)
            (accounts w)) w).

(** [SELECT beginningBalance FROM account WHERE id = ?], first row. *)
Definition select_beginning (w : world) (acc_id : Z) : option Q :=
  fetchone (map a_beginningBalance
                (filter (fun a => a_id a =? acc_id) (accounts w))).

(** ** Balance calculator *)

Definition calculate_account_balance
  (w : world) (account_id : Z) (beginning_balance : Q) : Q :=
  let income :=
    SUM (map r_amount
           (filter (fun r => (r_accountId r =? account_id)
                             && r_isIncome r && negb (r_isTransfer r))
                   (records w))) in
  let expenses :=
    SUM (map r_amount
           (filter (fun r => (r_accountId r =? account_id)
                             && negb (r_isIncome r) && negb (r_isTransfer r))
                   (records w))) in
  let transfers_out :=
    SUM (map r_amount
           (filter (fun r => (r_accountId r =? account_id) && r_isTransfer r)
                   (records w))) in
  let transfers_in :=
    SUM (map r_amount
           (filter (fun r => opt_Z_eqb (r_transferToAccountId r) account_id)
                   (records w))) in
  (beginning_balance + income - expenses - transfers_out + transfers_in)%Q.

(** The rows of [bq balance]: name, current balance and starting balance
    of every account that is not soft-deleted, and the total. *)
Definition balance (w : world) : list (string * Q * Q) * Q :=
  let rows :=
    map (fun a =>
           (a_name a,
            calculate_account_balance w (a_id a) (a_beginningBalance a),
            a_beginningBalance a))
        (order_by by_id (filter (fun a => is_null (a_deletedAt a)) (accounts w))) in
  (rows, fold_left (fun total row => (total + snd (fst row))%Q) rows 0%Q).

(** ** Commands *)

Definition parse_date (date_str : option string) : M datetime :=
  match truthy date_str with
  | Some s =>
      match strptime s with
      | Some d => ret d
      | None => raise InvalidDateFormat
      end
  | None => datetime_now
  end.

Definition add (amount : Q) (label : string) (category account : option string)
  (income : bool) (date_str : option string) : M unit :=
  if Qle_bool amount 0 then raise AmountMustBePositive else
  ' (account_id, account_name) <-
      match truthy account with
      | Some account =>
          acc_result <- query (fun w => find_account w account) ;;
          match acc_result with
          | None => raise (AccountNotFound account)
          | Some result => ret result
          end
      | None => query get_default_account
      end ;;
  category_id <-
      match truthy category with
      | Some category =>
          cat_result <- query (fun w => find_category w category) ;;
          match cat_result with
          | None => raise (CategoryNotFound category)
          | Some (category_id, _) => ret (Some category_id)
          end
      | None =>
          default_cat <- query get_default_category ;;
          ret (option_map fst default_cat)
      end ;;
  record_date <- parse_date date_str ;;
  now <- datetime_now ;;
  insert_record
    (fun id => mkRecord id now now label amount record_date account_id
                        category_id false income false None).

Definition transfer (amount : Q) (label : string)
  (from_account to_account : string) (date_str : option string) : M unit :=
  if Qle_bool amount 0 then raise AmountMustBePositive else
  from_result <- query (fun w => find_account w from_account) ;;
  match from_result with
  | None => raise (SourceAccountNotFound from_account)
  | Some (from_id, from_name) =>
      to_result <- query (fun w => find_account w to_account) ;;
      match to_result with
      | None => raise (DestinationAccountNotFound to_account)
      | Some (to_id, to_name) =>
          if from_id =? to_id then raise SameAccount else
          record_date <- parse_date date_str ;;
          now <- datetime_now ;;
          insert_record
            (fun id => mkRecord id now now label amount record_date from_id
                                None false false true (Some to_id))
      end
  end.

Definition balance_set (account : string) (amount : Q) : M unit :=
  acc_result <- query (fun w => find_account w account) ;;
  match acc_result with
  | None => raise (AccountNotFound account)
  | Some (acc_id, acc_name) =>
      w <- get ;;
      match select_beginning w acc_id with
      | None => raise TypeError
      | Some old_beginning =>
          let current := calculate_account_balance w acc_id old_beginning in
          let new_beginning := (old_beginning + (amount - current))%Q in
          now <- datetime_now ;;
          update_beginning new_beginning now acc_id
      end
  end.

(** Returns the new current balance it prints. *)
Definition balance_adjust (account : string) (amount : Q) : M Q :=
  acc_result <- query (fun w => find_account w account) ;;
  match acc_result with
  | None => raise (AccountNotFound account)
  | Some (acc_id, acc_name) =>
      w <- get ;;
      match select_beginning w acc_id with
      | None => raise TypeError
      | Some old_beginning =>
          let new_beginning := (old_beginning + amount)%Q in
          now <- datetime_now ;;
          update_beginning new_beginning now acc_id ;;;
          w' <- get ;;
          ret (calculate_account_balance w' acc_id new_beginning)
      end
  end.

(** [answer] is what the user replies if [click.confirm] comes to ask. *)
Definition undo (yes : bool) (answer : bool) : M unit :=
  config <- get_config ;;
  w <- get ;;
  match fetchone (order_by by_createdAt_desc (records w)) with
  | None => ret tt
  | Some record =>
      if negb yes && value_truthy (index config "confirm_undo") && negb answer
      then ret tt
      else delete_record (r_id record)
  end.

(** One optional field of [edit]: nothing to update when it is not given. *)
Definition field {A} (o : option A) (k : A -> M (list assignment))
  : M (list assignment) :=
  match o with
  | None => ret []
  | Some x => k x
  end.

Definition edit (num : Z) (amount : option Q) (new_label : option string)
  (category account : option string) (date_str : option string)
  (is_income : option bool) : M unit :=
  if is_null amount && is_null new_label && is_null category
     && is_null account && is_null date_str && is_null is_income
  then raise NothingToEdit else
  w <- get ;;
  (* LIMIT 1 OFFSET num - 1; SQLite reads a negative offset as 0 *)
  match nth_error (order_by by_createdAt_desc (records w))
                  (Z.to_nat (num - 1)) with
  | None => ret tt
  | Some record =>
      let record_id := r_id record in
      u_amount <- field amount (fun amount =>
        if Qle_bool amount 0 then raise AmountMustBePositive
        else ret [SetAmount amount]) ;;
      u_label <- field new_label (fun new_label => ret [SetLabel new_label]) ;;
      u_category <- field category (fun category =>
        cat_result <- query (fun w => find_category w category) ;;
        match cat_result with
        | None => raise (CategoryNotFound category)
        | Some (id, _) => ret [SetCategoryId id]
        end) ;;
      u_account <- field account (fun account =>
        acc_result <- query (fun w => find_account w account) ;;
        match acc_result with
        | None => raise (AccountNotFound account)
        | Some (id, _) => ret [SetAccountId id]
        end) ;;
      u_date <- field date_str (fun date_str =>
        match strptime date_str with
        | None => raise InvalidDateFormat
        | Some new_date => ret [SetDate new_date]
        end) ;;
      u_income <- field is_income (fun is_income => ret [SetIsIncome is_income]) ;;
      now <- datetime_now ;;
      update_record
        (u_amount ++ u_label ++ u_category ++ u_account ++ u_date ++ u_income
         ++ [SetUpdatedAt now])
        record_id
  end.

(** ** The [config] command group *)

Definition says_true (value : string) : bool :=
  existsb (String.eqb (LOWER value)) ["true"; "1"; "yes"; "on"].

Definition says_false (value : string) : bool :=
  existsb (String.eqb (LOWER value)) ["false"; "0"; "no"; "off"].

Definition config_set (key value : string) : M unit :=
  cfg <- get_config ;;
  cfg' <-
    (if String.eqb key "default_account" then
       if String.eqb (LOWER value) "none"
       then ret (dict_set cfg "default_account" VNone)
       else
         result <- query (fun w => find_account w value) ;;
         match result with
         | None => raise (AccountNotFound value)
         | Some (_, name) => ret (dict_set cfg "default_account" (VStr name))
         end
     else if String.eqb key "default_category" then
       if String.eqb (LOWER value) "none"
       then ret (dict_set cfg "default_category" VNone)
       else
         result <- query (fun w => find_category w value) ;;
         match result with
         | None => raise (CategoryNotFound value)
         | Some (_, name) => ret (dict_set cfg "default_category" (VStr name))
         end
     else if String.eqb key "confirm_undo" then
       if says_true value then ret (dict_set cfg "confirm_undo" (VBool true))
       else if says_false value
            then ret (dict_set cfg "confirm_undo" (VBool false))
            else raise NotTrueOrFalse
     else if String.eqb key "show_balance_after_add" then
       if says_true value
       then ret (dict_set cfg "show_balance_after_add" (VBool true))
       else if says_false value
            then ret (dict_set cfg "show_balance_after_add" (VBool false))
            else raise NotTrueOrFalse
     else raise (UnknownConfigKey key)) ;;
  save_config cfg'.

Definition config_reset (yes : bool) (answer : bool) : M unit :=
  if negb yes && negb answer then ret tt else
  fun w =>
    match config_file w with
    | Missing => (Ok tt, w)
    | _ => (Ok tt, set_config_file Missing w)   (* CONFIG_PATH.unlink() *)
    end.

(** ** The balance, as the specification words it *)

(** The sum of the amounts of the records of a ledger that satisfy [P]. *)
Fixpoint sigma (P : record -> bool) (rs : list record) : Q :=
  match rs with
  | [] => 0
  | r :: rs' => (if P r then r_amount r else 0) + sigma P rs'
  end%Q.

(** The four kinds of record the formula of the specification names. *)
Definition income_of (a : Z) (r : record) : bool :=
  negb (r_isTransfer r) && r_isIncome r && (r_accountId r =? a).

Definition expense_of (a : Z) (r : record) : bool :=
  negb (r_isTransfer r) && negb (r_isIncome r) && (r_accountId r =? a).

Definition transfer_out_of (a : Z) (r : record) : bool :=
  r_isTransfer r && (r_accountId r =? a).

Definition transfer_into (a : Z) (r : record) : bool :=
  r_isTransfer r && opt_Z_eqb (r_transferToAccountId r) a.

(** Any record, transfer or not, that names [a] as its destination. *)
Definition destined_to (a : Z) (r : record) : bool :=
  opt_Z_eqb (r_transferToAccountId r) a.

(** The balance as the specification words it: every sum over its own kind
    of record. *)
Definition specified_balance (rs : list record) (a : Z) (beginning : Q) : Q :=
  (beginning + sigma (income_of a) rs - sigma (expense_of a) rs
   - sigma (transfer_out_of a) rs + sigma (transfer_into a) rs)%Q.

(** Only transfers carry a destination account. *)
Definition destinations_on_transfers (rs : list record) : Prop :=
  Forall (fun r => r_transferToAccountId r <> None -> r_isTransfer r = true) rs.

(** ** Sample data *)

Definition sample_clock : nat -> datetime := fun n => 5000 + Z.of_nat n.

Definition checking : account := mkAccount 1 "Checking" None 100 0 None.
Definition savings : account := mkAccount 2 "Savings" None 0 0 None.
Definition outside : account := mkAccount 3 "Outside source" None 0 0 None.
Definition closed_account : account := mkAccount 4 "Old card" None 0 0 (Some 7).

Definition food : category := mkCategory 1 "Food" None.
Definition food_delivery : category := mkCategory 2 "Food Delivery" None.
Definition salary : category := mkCategory 3 "Salary" None.

(** Groceries paid from Checking, a salary, and a transfer to Savings. *)
Definition groceries : record :=
  mkRecord 1 1000 1000 "Groceries" 50 900 1 (Some 1) false false false None.
Definition payday : record :=
  mkRecord 2 2000 2000 "Monthly salary" 1500 800 1 (Some 3) false true false None.
Definition to_savings : record :=
  mkRecord 3 3000 3000 "Move to savings" 500 700 1 None false false true (Some 2).

Definition household : world :=
  mkWorld [checking; savings; outside; closed_account]
          [food; food_delivery; salary]
          [groceries; payday; to_savings]
          Missing sample_clock 0.



(** The ledger with other dates: [f r] in place of the date of [r]. *)
Definition redate (f : record -> datetime) (w : world) : world :=
  set_records (map (fun r => assign r (SetDate (f r))) (records w)) w.

(** ** Words of the claims about accounts *)

Definition live (a : account) : bool := is_null (a_deletedAt a).

Definition outside_source (a : account) : bool :=
  String.eqb (a_name a) "Outside source".

(** [b] is a row of [accs] that satisfies [P], and none that does has a
    lower id. *)
Definition lowest_id (P : account -> bool) (accs : list account) (b : account)
  : Prop :=
  In b accs /\ P b = true
  /\ forall a, In a accs -> P a = true -> a_id b <= a_id a.

(** ** Words of the claim about the configuration file *)

(** The value a JSON object gives a name: that of its last member with
    that name. *)
Fixpoint lookup_last (members : list (string * value)) (k : string)
  : option value :=
  match members with
  | [] => None
  | (k', v) :: rest =>
      match lookup_last rest k with
      | Some v' => Some v'
      | None => if String.eqb k' k then Some v else None
      end
  end.

(** A configuration file with a stale default account and a key the tool
    does not know. *)
Definition stale_members : list (string * value) :=
  [ ("default_account", VStr "Wallet"); ("theme", VStr "dark") ].

Definition stale_world : world :=
  mkWorld [outside; closed_account; savings; checking]
          [food; food_delivery; salary]
          [groceries; payday; to_savings]
          (Saved stale_members) sample_clock 0.

(** ** Words of the claims about [add] *)

(** The account [add] books on: the one named, or else the default one. *)
Definition account_resolves (w : world) (account : option string) (id : Z)
  : Prop :=
  match truthy account with
  | Some s => exists name, find_account w s = Ok (Some (id, name))
  | None => exists name, get_default_account w = Ok (id, name)
  end.

(** The category [add] books under: the one named, or else the configured
    default, or none. *)
Definition category_resolves (w : world) (category : option string)
  (cid : option Z) : Prop :=
  match truthy category with
  | Some s => exists id name,
      find_category w s = Ok (Some (id, name)) /\ cid = Some id
  | None => exists found,
      get_default_category w = Ok found /\ cid = option_map fst found
  end.

(** No date given, or one that [strptime] takes. *)
Definition date_usable (date_str : option string) : Prop :=
  match truthy date_str with
  | Some s => strptime s <> None
  | None => True
  end.

(** ** The resolver, as the specification words it *)

(** Over the rows that are not soft-deleted: the first whose name equals
    the search text up to case; failing that, the rows whose name contains
    the search text up to case: none is 'not found', one is the match,
    several are an ambiguous-match error with all their names. *)
Definition resolve {row : Type} (id : row -> Z) (name : row -> string)
  (deleted : row -> option datetime) (ambiguous : string -> list string -> error)
  (rows : list row) (search : string) : res (option (Z * string)) :=
  match filter (fun x => String.eqb (LOWER (name x)) (LOWER search)
                         && is_null (deleted x)) rows with
  | x :: _ => Ok (Some (id x, name x))
  | [] =>
      match filter (fun x => contains_nocase search (name x)
                             && is_null (deleted x)) rows with
      | [] => Ok None
      | [x] => Ok (Some (id x, name x))
      | found => Raise (ambiguous search (map name found))
      end
  end.


(** ** The two resolvers as one

    [find_account] and [find_category] are the same code over two tables;
    [find_in] is that code over any table, for the facts that hold of
    both. *)

Definition find_in {row : Type} (id : row -> Z) (name : row -> string)
  (deleted : row -> option datetime) (ambiguous : string -> list string -> error)
  (rows : list row) (search : string) : res (option (Z * string)) :=
  match fetchone
          (filter (fun x => String.eqb (LOWER (name x)) (LOWER search)
                            && is_null (deleted x)) rows) with
  | Some x => Ok (Some (id x, name x))
  | None =>
      let results :=
        filter (fun x => like (LOWER ("%" ++ search ++ "%")) (LOWER (name x))
                         && is_null (deleted x)) rows in
      match results with
      | [] => Ok None
      | [x] => Ok (Some (id x, name x))
      | _ => Raise (ambiguous search (map name results))
      end
  end.

(** [name] is what the partial-match query for [search] selects. *)
Definition partial_match (search name : string) : bool :=
  like (LOWER ("%" ++ search ++ "%")) (LOWER name).

(** [name] is what the exact-match query for [search] selects. *)
Definition exact_match (search name : string) : bool :=
  String.eqb (LOWER name) (LOWER search).

(** ** Words of the further properties *)

(** The id the next inserted record gets. *)
Definition new_id (w : world) : Z := next_rowid (map r_id (records w)).


(** What [add], [transfer] and [edit] check or never touch: amounts are
    above zero, only transfers name a destination, ids are a key. *)
Definition ledger_ok (rs : list record) : Prop :=
  Forall (fun r => (0 < r_amount r)%Q) rs
  /\ destinations_on_transfers rs
  /\ NoDup (map r_id rs).

(** The row [UPDATE account SET beginningBalance = ?, updatedAt = ? WHERE
    id = ?] makes of a row. *)
Definition with_beginning (acc_id : Z) (new_beginning : Q) (now : datetime)
  (a : account) : account :=
  if a_id a =? acc_id
  then mkAccount (a_id a) (a_name a) (a_description a) new_beginning now
                 (a_deletedAt a)
  else a.

(** The world after one reading of the clock. *)
Definition ticked (w : world) : world :=
  mkWorld (accounts w) (categories w) (records w) (config_file w)
          (clock w) (S (tick w)).

(** ** [cats]: the list of categories

    [cats] reads two more columns of the category table than the
    resolver does, the parent category and the nature; a [category_row] is
    a row with all the columns it reads.  The table it prints is returned as
    the list of its rows, the tree as its headings, each with the lines
    under it. *)

Record category_row := mkCategoryRow {
  cr_id : Z;
  cr_name : string;
  cr_parentCategoryId : option Z;
  cr_nature : string;
  cr_deletedAt : option datetime
}.

(** The columns of a row that the resolver reads. *)
Definition category_of (r : category_row) : category :=
  mkCategory (cr_id r) (cr_name r) (cr_deletedAt r).

(** [ORDER BY parentCategoryId NULLS FIRST, name], names in byte order. *)
Definition by_parent_then_name (a b : category_row) : bool :=
  match cr_parentCategoryId a, cr_parentCategoryId b with
  | None, None => String.leb (cr_name a) (cr_name b)
  | None, Some _ => true
  | Some _, None => false
  | Some x, Some y =>
      (x <? y) || ((x =? y) && String.leb (cr_name a) (cr_name b))
  end.

(** [SELECT id, name, parentCategoryId, nature FROM category WHERE
    deletedAt IS NULL ORDER BY parentCategoryId NULLS FIRST, name] *)
Definition select_categories (table : list category_row) : list category_row :=
  order_by by_parent_then_name
           (filter (fun r => is_null (cr_deletedAt r)) table).

(** A Python [dict] with integer keys, in insertion order. *)
Definition zdict (A : Type) : Type := list (Z * A).

Fixpoint zget {A} (d : zdict A) (k : Z) : option A :=
  match d with
  | [] => None
  | (k', v) :: d' => if k' =? k then Some v else zget d' k
  end.

Fixpoint zset {A} (d : zdict A) (k : Z) (v : A) : zdict A :=
  match d with
  | [] => [(k, v)]
  | (k', v') :: d' =>
      if k' =? k then (k', v) :: d' else (k', v') :: zset d' k v
  end.

(** [d.get(k, [])] *)
Definition zget_or_nil {A} (d : zdict (list A)) (k : Z) : list A :=
  match zget d k with
  | Some l => l
  | None => []
  end.

(** One turn of the loop that fills [parents] and [children]. *)
Definition cats_step
  (st : zdict (string * string) * zdict (list (string * string)))
  (row : category_row)
  : zdict (string * string) * zdict (list (string * string)) :=
  let (parents, children) := st in
  match cr_parentCategoryId row with
  | None =>
      (zset parents (cr_id row) (cr_name row, cr_nature row),
       zset children (cr_id row) [])
  | Some parent_id =>
      let children :=
        match zget children parent_id with
        | None => zset children parent_id []
        | Some _ => children
        end in
      (parents,
       zset children parent_id
            (zget_or_nil children parent_id
             ++ [(cr_name row, cr_nature row)])%list)
  end.

(** Truthiness of [parent_id]: neither null nor zero. *)
Definition parent_truthy (o : option Z) : bool :=
  match o with
  | Some p => negb (p =? 0)
  | None => false
  end.

Inductive cats_output :=
| FlatTable (rows : list (string * string))
| Tree (headings : list (string * string * list (string * string))).

Definition cats (flat : bool) (table : list category_row) : cats_output :=
  let categories := select_categories table in
  if flat then
    FlatTable
      (map (fun r =>
              ((if parent_truthy (cr_parentCategoryId r) then "    " else "")
               ++ cr_name r,
               cr_nature r))
           categories)
  else
    let (parents, children) := fold_left cats_step categories ([], []) in
    Tree
      (map (fun entry =>
              let '(parent_id, (parent_name, parent_nature)) := entry in
              (parent_name, parent_nature, zget_or_nil children parent_id))
           parents).

(** The lines under the heading of category [k]: the rows whose parent it
    is. *)
Definition kids (k : Z) (rows : list category_row) : list (string * string) :=
  map (fun c => (cr_name c, cr_nature c))
      (filter (fun c => opt_Z_eqb (cr_parentCategoryId c) k) rows).

(** A sample table: two top-level categories, one of them with two
    children, a child of a soft-deleted category and a child of a child. *)
Definition sample_categories : list category_row :=
  [ mkCategoryRow 1 "Food" None "Need" None;
    mkCategoryRow 2 "Restaurants" (Some 1) "Want" None;
    mkCategoryRow 3 "Groceries" (Some 1) "Need" None;
    mkCategoryRow 4 "Travel" None "Want" (Some 9);
    mkCategoryRow 5 "Flights" (Some 4) "Want" None;
    mkCategoryRow 6 "Bills" None "Must" None;
    mkCategoryRow 7 "Fast food" (Some 2) "Want" None ].

(** Every record points to rows that are there: its account, its
    category if it has one, and its destination account if it has one. *)
Definition references_ok (w : world) : Prop :=
  Forall
    (fun r =>
       In (r_accountId r) (map a_id (accounts w))
       /\ (forall c, r_categoryId r = Some c -> In c (map c_id (categories w)))
       /\ (forall t, r_transferToAccountId r = Some t ->
                     In t (map a_id (accounts w))))
    (records w).
(** * Properties *)

(** ** The date parser on examples *)

Example strptime_padded :
  strptime "2025-01-03" = Some ((739254 - 1) * 86400000000)
  /\ strptime "2024-03-01" = Some ((738946 - 1) * 86400000000)
  /\ strptime "2025-1- 3" = strptime "2025-01-03".
Proof. repeat split. Qed.

Example strptime_unpadded : strptime "2025-1-3" = strptime "2025-01-03".
Proof. reflexivity. Qed.

Example strptime_rejects :
  map strptime ["tomorrow"; "2025-02-30"; "2025-13-01"; "2025-01-031"; "25-01-03"]
  = [None; None; None; None; None].
Proof. reflexivity. Qed.

(** ** LIKE against substrings *)

Section LikeFacts.

Lemma like_percent (q s : string) :
  like (String "%" q) s
  = like q s
    || match s with
       | EmptyString => false
       | String _ s' => like (String "%" q) s'
       end.
Proof. destruct s; reflexivity. Qed.

Lemma like_plain (c : ascii) (q s : string) :
  is_wildcard c = false ->
  like (String c q) s
  = match s with
    | EmptyString => false
    | String d s' => Ascii.eqb (lower_ascii c) (lower_ascii d) && like q s'
    end.
Proof.
  unfold is_wildcard. intros H.
  apply orb_false_elim in H. destruct H as [Hp Hu].
  simpl. rewrite Hp, Hu. destruct s; reflexivity.
Qed.

Lemma like_any (s : string) : like "%" s = true.
Proof.
  induction s as [|c s IH].
  - reflexivity.
  - rewrite like_percent. rewrite IH. apply orb_true_r.
Qed.

Lemma like_prefix (p : string) :
  wildcard_free p = true ->
  forall s, like (p ++ "%") s = prefix_nocase p s.
Proof.
  induction p as [|c p IH]; intros Hp s.
  - simpl. rewrite like_any. reflexivity.
  - simpl in Hp. apply andb_true_iff in Hp. destruct Hp as [Hc Hp].
    apply negb_true_iff in Hc.
    change (String c p ++ "%") with (String c (p ++ "%")).
    rewrite (like_plain _ _ _ Hc).
    destruct s as [|d s]; simpl; [reflexivity|].
    rewrite (IH Hp). reflexivity.
Qed.

(** Without wildcards in it, the pattern [%p%] finds the substring [p]. *)
Lemma like_contains (p : string) :
  wildcard_free p = true ->
  forall s, like ("%" ++ p ++ "%") s = contains_nocase p s.
Proof.
  intros Hp s.
  change ("%" ++ p ++ "%") with (String "%" (p ++ "%")).
  induction s as [|d s IH].
  - rewrite like_percent, (like_prefix _ Hp). simpl.
    destruct p; reflexivity.
  - rewrite like_percent, (like_prefix _ Hp), IH. reflexivity.
Qed.

Lemma lower_ascii_idem (c : ascii) :
  lower_ascii (lower_ascii c) = lower_ascii c.
Proof.
  destruct c as [[] [] [] [] [] [] [] []]; reflexivity.
Qed.

Lemma lower_ascii_wildcard (c : ascii) :
  is_wildcard (lower_ascii c) = is_wildcard c.
Proof.
  destruct c as [[] [] [] [] [] [] [] []]; reflexivity.
Qed.

Lemma LOWER_app (s t : string) : LOWER (s ++ t) = LOWER s ++ LOWER t.
Proof.
  induction s as [|c s IH]; simpl; [reflexivity|]. now rewrite IH.
Qed.

Lemma wildcard_free_LOWER (s : string) :
  wildcard_free (LOWER s) = wildcard_free s.
Proof.
  induction s as [|c s IH]; simpl; [reflexivity|].
  now rewrite lower_ascii_wildcard, IH.
Qed.

Lemma prefix_nocase_LOWER (p s : string) :
  prefix_nocase (LOWER p) (LOWER s) = prefix_nocase p s.
Proof.
  revert s. induction p as [|c p IH]; intros [|d s]; simpl; try reflexivity.
  now rewrite !lower_ascii_idem, IH.
Qed.

Lemma contains_nocase_LOWER (p s : string) :
  contains_nocase (LOWER p) (LOWER s) = contains_nocase p s.
Proof.
  induction s as [|d s IH].
  - simpl. f_equal. apply (prefix_nocase_LOWER p EmptyString).
  - change (LOWER (String d s)) with (String (lower_ascii d) (LOWER s)).
    change (contains_nocase (LOWER p) (String (lower_ascii d) (LOWER s)))
      with (prefix_nocase (LOWER p) (LOWER (String d s))
            || contains_nocase (LOWER p) (LOWER s)).
    change (contains_nocase p (String d s))
      with (prefix_nocase p (String d s) || contains_nocase p s).
    now rewrite IH, prefix_nocase_LOWER.
Qed.

(** The partial-match stage of the resolver, for a search text without
    wildcard characters. *)
Lemma partial_match_is_substring (search name : string) :
  wildcard_free search = true ->
  like (LOWER ("%" ++ search ++ "%")) (LOWER name)
  = contains_nocase search name.
Proof.
  intros H.
  rewrite !LOWER_app.
  change (LOWER "%") with "%".
  rewrite like_contains by (now rewrite wildcard_free_LOWER).
  apply contains_nocase_LOWER.
Qed.

End LikeFacts.

(** ** The balance formula *)

Section BalanceFacts.

Lemma fold_Qplus_acc (xs : list Q) (a : Q) :
  (fold_left Qplus xs a == a + fold_left Qplus xs 0)%Q.
Proof.
  revert a. induction xs as [|x xs IH]; intros a; simpl.
  - ring.
  - rewrite (IH (a + x)%Q), (IH (0 + x)%Q). ring.
Qed.

Lemma SUM_cons (x : Q) (xs : list Q) : (SUM (x :: xs) == x + SUM xs)%Q.
Proof.
  unfold SUM. simpl. rewrite fold_Qplus_acc. ring.
Qed.

Lemma SUM_where (P : record -> bool) (rs : list record) :
  (SUM (map r_amount (filter P rs)) == sigma P rs)%Q.
Proof.
  induction rs as [|r rs IH]; simpl.
  - reflexivity.
  - destruct (P r); simpl.
    + rewrite SUM_cons, IH. reflexivity.
    + rewrite IH. ring.
Qed.

Lemma sigma_ext (P P' : record -> bool) (rs : list record) :
  (forall r, In r rs -> P r = P' r) -> (sigma P rs == sigma P' rs)%Q.
Proof.
  induction rs as [|r rs IH]; intros H; simpl.
  - reflexivity.
  - rewrite (H r (or_introl eq_refl)).
    rewrite IH by (intros; apply H; now right). reflexivity.
Qed.

(** The four queries of [calculate_account_balance], each as the sum over
    one kind of record. *)
Lemma SUM_income (rs : list record) (a : Z) :
  (SUM (map r_amount
          (filter (fun r => (r_accountId r =? a) && r_isIncome r
                            && negb (r_isTransfer r)) rs))
   == sigma (income_of a) rs)%Q.
Proof.
  rewrite SUM_where. apply sigma_ext. intros r _. unfold income_of.
  destruct (r_isTransfer r), (r_isIncome r), (r_accountId r =? a); reflexivity.
Qed.

Lemma SUM_expenses (rs : list record) (a : Z) :
  (SUM (map r_amount
          (filter (fun r => (r_accountId r =? a) && negb (r_isIncome r)
                            && negb (r_isTransfer r)) rs))
   == sigma (expense_of a) rs)%Q.
Proof.
  rewrite SUM_where. apply sigma_ext. intros r _. unfold expense_of.
  destruct (r_isTransfer r), (r_isIncome r), (r_accountId r =? a); reflexivity.
Qed.

Lemma SUM_transfers_out (rs : list record) (a : Z) :
  (SUM (map r_amount
          (filter (fun r => (r_accountId r =? a) && r_isTransfer r) rs))
   == sigma (transfer_out_of a) rs)%Q.
Proof.
  rewrite SUM_where. apply sigma_ext. intros r _. apply andb_comm.
Qed.

Lemma SUM_transfers_in (rs : list record) (a : Z) :
  (SUM (map r_amount
          (filter (fun r => opt_Z_eqb (r_transferToAccountId r) a) rs))
   == sigma (destined_to a) rs)%Q.
Proof. apply SUM_where. Qed.

(** Where only transfers have a destination, the records with destination
    [a] are the transfers into [a]. *)
Lemma destined_are_transfers (rs : list record) (a : Z) :
  destinations_on_transfers rs ->
  (sigma (destined_to a) rs == sigma (transfer_into a) rs)%Q.
Proof.
  intros Hinv. apply sigma_ext.
  intros r Hr. unfold destined_to, transfer_into.
  unfold destinations_on_transfers in Hinv.
  rewrite Forall_forall in Hinv. specialize (Hinv r Hr).
  destruct (r_transferToAccountId r) as [d|]; simpl.
  - rewrite Hinv by discriminate. reflexivity.
  - now rewrite andb_false_r.
Qed.

(** On a ledger where only transfers have a destination,
    [calculate_account_balance] is the balance of the specification. *)
Lemma calculate_account_balance_specified (w : world) (a : Z) (b : Q) :
  destinations_on_transfers (records w) ->
  (calculate_account_balance w a b == specified_balance (records w) a b)%Q.
Proof.
  intros Hinv. unfold calculate_account_balance, specified_balance.
  rewrite SUM_income, SUM_expenses, SUM_transfers_out, SUM_transfers_in.
  rewrite (destined_are_transfers _ _ Hinv). reflexivity.
Qed.

End BalanceFacts.



(** The example of the specification: Checking starts at 100 and shows 50
    after 50 of groceries. *)
Example balance_after_groceries :
  (calculate_account_balance
     (set_records [groceries] household) (a_id checking)
     (a_beginningBalance checking) == 50)%Q.
Proof. reflexivity. Qed.

(** ** The resolver and the account table *)

Section ResolverFacts.

Lemma fetchone_In {A} (l : list A) (x : A) : fetchone l = Some x -> In x l.
Proof. destruct l; simpl; intros H; [discriminate | left; congruence]. Qed.

(** Whatever [find_account] returns is a row of the account table that is
    not soft-deleted. *)
Lemma find_account_sound (w : world) (search : string) (id : Z) (name : string) :
  find_account w search = Ok (Some (id, name)) ->
  exists a, In a (accounts w) /\ a_id a = id /\ a_name a = name
            /\ a_deletedAt a = None.
Proof.
  unfold find_account.
  set (exact := filter _ (accounts w)).
  set (partial := filter _ (accounts w)).
  assert (Hlive : forall (f : account -> bool) a,
             In a (filter (fun a => f a && is_null (a_deletedAt a)) (accounts w)) ->
             In a (accounts w) /\ a_deletedAt a = None).
  { intros f a Ha. apply filter_In in Ha. destruct Ha as [Ha Hf].
    apply andb_true_iff in Hf. destruct Hf as [_ Hf].
    split; [exact Ha|]. destruct (a_deletedAt a); [discriminate | reflexivity]. }
  destruct (fetchone exact) as [a|] eqn:Hex.
  - intros H. inversion H; subst. apply fetchone_In in Hex.
    apply Hlive in Hex. exists a. tauto.
  - destruct partial as [|a [|b l]] eqn:Hp; intros H; try discriminate.
    inversion H; subst.
    assert (Ha : In a partial) by (rewrite Hp; now left).
    apply Hlive in Ha. exists a. tauto.
Qed.

Lemma select_beginning_exists (w : world) (a : account) :
  In a (accounts w) -> exists b, select_beginning w (a_id a) = Some b.
Proof.
  unfold select_beginning. intros Ha.
  induction (accounts w) as [|x l IH]; [contradiction|].
  simpl. destruct (a_id x =? a_id a) eqn:E.
  - simpl. eauto.
  - destruct Ha as [->|Ha]; [rewrite Z.eqb_refl in E; discriminate|].
    now apply IH.
Qed.





End ResolverFacts.

(** ** [balance set] and [balance adjust] *)



(** On the sample ledger Checking stands at 1050; setting it to 42 stores
    a beginning balance of -908. *)
Example balance_set_household :
  (calculate_account_balance household 1 100 == 1050)%Q
  /\ option_map Qred
       (select_beginning (snd (balance_set "check" 42 household)) 1)
     = Some (-908)%Q.
Proof. split; reflexivity. Qed.



(** ** ORDER BY *)

Section OrderBy.

Context {A : Type} (leb : A -> A -> bool).
Hypothesis leb_total : forall x y, leb x y = true \/ leb y x = true.
Hypothesis leb_trans :
  forall x y z, leb x y = true -> leb y z = true -> leb x z = true.

Lemma insert_by_not_nil (x : A) (l : list A) : insert_by leb x l <> [].
Proof. destruct l; simpl; [|destruct (leb x a)]; discriminate. Qed.

Lemma order_by_nil (l : list A) : order_by leb l = [] -> l = [].
Proof.
  destruct l as [|a l]; [reflexivity|]. simpl. intros H.
  now apply insert_by_not_nil in H.
Qed.

Lemma insert_by_perm (x : A) (l : list A) :
  Permutation (insert_by leb x l) (x :: l).
Proof.
  induction l as [|y l IH]; simpl; [reflexivity|].
  destruct (leb x y); [reflexivity|].
  rewrite IH. apply perm_swap.
Qed.

Lemma order_by_perm (l : list A) : Permutation (order_by leb l) l.
Proof.
  induction l as [|a l IH]; simpl; [reflexivity|].
  rewrite insert_by_perm. now constructor.
Qed.

(** The first row of an ordered selection is a row that may come before
    every other. *)
Lemma order_by_first (l : list A) (x : A) :
  fetchone (order_by leb l) = Some x ->
  In x l /\ forall y, In y l -> leb x y = true.
Proof.
  revert x. induction l as [|a l IH]; intros x; simpl; [discriminate|].
  destruct (order_by leb l) as [|y s] eqn:Hs.
  - apply order_by_nil in Hs. subst l. simpl. intros H. inversion H; subst.
    split; [now left|]. intros y [<-|[]].
    destruct (leb_total x x); assumption.
  - destruct (IH y eq_refl) as [Hy Hmin]. simpl.
    destruct (leb a y) eqn:Hay; simpl; intros H; inversion H; subst.
    + split; [now left|]. intros z [Hz|Hz].
      * subst z. destruct (leb_total x x); assumption.
      * eapply leb_trans; [exact Hay|]. now apply Hmin.
    + split; [now right|]. intros z [Hz|Hz].
      * subst z. destruct (leb_total x a) as [H1|H1]; [exact H1|congruence].
      * now apply Hmin.
Qed.

End OrderBy.

Lemma order_by_map {A} (leb : A -> A -> bool) (g : A -> A) (l : list A) :
  (forall x y, leb (g x) (g y) = leb x y) ->
  order_by leb (map g l) = map g (order_by leb l).
Proof.
  intros Hg. induction l as [|a l IH]; simpl; [reflexivity|].
  rewrite IH. generalize (order_by leb l). intros s.
  induction s as [|y s IHs]; simpl; [reflexivity|].
  rewrite Hg. destruct (leb a y); simpl; [reflexivity|]. now rewrite IHs.
Qed.

Lemma fetchone_map {A B} (g : A -> B) (l : list A) :
  fetchone (map g l) = option_map g (fetchone l).
Proof. destruct l; reflexivity. Qed.

Lemma by_createdAt_desc_total (x y : record) :
  by_createdAt_desc x y = true \/ by_createdAt_desc y x = true.
Proof. unfold by_createdAt_desc. rewrite !Z.leb_le. lia. Qed.

Lemma by_createdAt_desc_trans (x y z : record) :
  by_createdAt_desc x y = true -> by_createdAt_desc y z = true ->
  by_createdAt_desc x z = true.
Proof. unfold by_createdAt_desc. rewrite !Z.leb_le. lia. Qed.

Lemma by_id_total (x y : account) : by_id x y = true \/ by_id y x = true.
Proof. unfold by_id. rewrite !Z.leb_le. lia. Qed.

Lemma by_id_trans (x y z : account) :
  by_id x y = true -> by_id y z = true -> by_id x z = true.
Proof. unfold by_id. rewrite !Z.leb_le. lia. Qed.

(** ** [undo] *)

(** Deleting by a key that occurs once removes that row and no other. *)
Lemma delete_unique_id (rs : list record) (r : record) :
  In r rs -> NoDup (map r_id rs) ->
  exists before after,
    rs = (before ++ r :: after)%list
    /\ filter (fun x => negb (r_id x =? r_id r)) rs = (before ++ after)%list.
Proof.
  intros Hin Hnd. apply in_split in Hin. destruct Hin as (l1 & l2 & ->).
  exists l1, l2. split; [reflexivity|].
  rewrite map_app in Hnd. simpl in Hnd.
  assert (Hother : forall x, In x (l1 ++ l2)%list -> r_id x <> r_id r).
  { intros x Hx Heq. apply NoDup_remove_2 in Hnd. apply Hnd.
    rewrite <- map_app, <- Heq. now apply in_map. }
  assert (Hkeep : forall l, (forall x, In x l -> r_id x <> r_id r) ->
            filter (fun x => negb (r_id x =? r_id r)) l = l).
  { induction l as [|x l IH]; intros H; simpl; [reflexivity|].
    destruct (r_id x =? r_id r) eqn:E.
    - apply Z.eqb_eq in E. exfalso. apply (H x); [now left | exact E].
    - simpl. f_equal. apply IH. intros y Hy. apply H. now right. }
  rewrite filter_app. simpl. rewrite Z.eqb_refl. simpl.
  rewrite !Hkeep; [reflexivity| |].
  - intros x Hx. apply Hother. apply in_or_app. now right.
  - intros x Hx. apply Hother. apply in_or_app. now left.
Qed.

(** C4: on a ledger that is not empty (record ids being a key), a confirmed
    [undo] succeeds and removes exactly one record, one whose creation
    timestamp no other record exceeds; every other record stays, in place,
    and so do the accounts and categories.  Which record goes does not
    depend on dates: with any other dates in the ledger, the record at the
    same place is removed. *)
Theorem undo_deletes_latest_created (w : world) (yes answer : bool) :
  records w <> [] ->
  NoDup (map r_id (records w)) ->
  yes = true
  \/ value_truthy (index (load_config (config_file w)) "confirm_undo") = false
  \/ answer = true ->
  exists r before after w',
    undo yes answer w = (Ok tt, w')
    /\ records w = (before ++ r :: after)%list
    /\ records w' = (before ++ after)%list
    /\ (forall r', In r' (records w) -> r_createdAt r' <= r_createdAt r)
    /\ accounts w' = accounts w
    /\ categories w' = categories w
    /\ forall f, exists w2',
         undo yes answer (redate f w) = (Ok tt, w2')
         /\ records w2'
            = map (fun r => assign r (SetDate (f r))) (before ++ after)%list.
Proof.
  intros Hne Hnd Hconfirmed.
  assert (Hskip : negb yes
                  && value_truthy (index (load_config (config_file w))
                                         "confirm_undo")
                  && negb answer = false).
  { destruct Hconfirmed as [->|[->| ->]]; simpl;
      rewrite ?andb_false_r; reflexivity. }
  destruct (fetchone (order_by by_createdAt_desc (records w))) as [r|] eqn:Hr.
  2:{ exfalso. apply Hne.
      apply (order_by_nil by_createdAt_desc).
      destruct (order_by by_createdAt_desc (records w)); [reflexivity|discriminate]. }
  destruct (order_by_first by_createdAt_desc by_createdAt_desc_total
              by_createdAt_desc_trans _ _ Hr) as [Hin Hmax].
  destruct (delete_unique_id _ _ Hin Hnd) as (before & after & Hsplit & Hdel).
  exists r, before, after. eexists.
  split; [|split; [exact Hsplit|split; [|split; [|split; [|split]]]]].
  - unfold undo, bind, get_config, get. rewrite Hr, Hskip.
    unfold delete_record. reflexivity.
  - simpl. exact Hdel.
  - intros r' Hr'. specialize (Hmax r' Hr').
    unfold by_createdAt_desc in Hmax. now apply Z.leb_le.
  - reflexivity.
  - reflexivity.
  - intros f. eexists. split.
    + unfold undo, bind, get_config, get.
      change (config_file (redate f w)) with (config_file w).
      change (records (redate f w))
        with (map (fun r => assign r (SetDate (f r))) (records w)).
      rewrite (order_by_map by_createdAt_desc) by reflexivity.
      rewrite fetchone_map, Hr. simpl option_map.
      cbv iota. rewrite Hskip. unfold delete_record. reflexivity.
    + simpl. rewrite <- Hdel.
      generalize (records w). intros l.
      induction l as [|x l IH]; simpl; [reflexivity|].
      destruct (r_id x =? r_id r); simpl; now rewrite IH.
Qed.

Lemma undo_deletes_latest_created_witness :
  records household <> []
  /\ NoDup (map r_id (records household))
  /\ exists r before after w',
       undo true false household = (Ok tt, w')
       /\ records household = (before ++ r :: after)%list
       /\ records w' = (before ++ after)%list
       /\ (forall r', In r' (records household) ->
             r_createdAt r' <= r_createdAt r)
       /\ accounts w' = accounts household
       /\ categories w' = categories household
       /\ forall f, exists w2',
            undo true false (redate f household) = (Ok tt, w2')
            /\ records w2'
               = map (fun r => assign r (SetDate (f r))) (before ++ after)%list.
Proof.
  split; [discriminate|].
  split; [repeat constructor; simpl; intuition discriminate|].
  apply (undo_deletes_latest_created household true false).
  - discriminate.
  - repeat constructor; simpl; intuition discriminate.
  - left. reflexivity.
Defined.

(** On the sample ledger it is the transfer, created last although dated
    first, that goes. *)
Example undo_household :
  records (snd (undo true false household)) = [groceries; payday].
Proof. reflexivity. Qed.

(** ** The default account *)

Lemma first_by_id (P : account -> bool) (accs : list account) :
  match fetchone (order_by by_id (filter P accs)) with
  | Some b => lowest_id P accs b
  | None => forall a, In a accs -> P a = false
  end.
Proof.
  destruct (fetchone (order_by by_id (filter P accs))) as [b|] eqn:Hb.
  - destruct (order_by_first by_id by_id_total by_id_trans _ _ Hb)
      as [Hin Hmin].
    apply filter_In in Hin. destruct Hin as [Hin HP].
    repeat split; try assumption.
    intros a Ha HPa.
    assert (Hfa : In a (filter P accs)) by (apply filter_In; now split).
    specialize (Hmin a Hfa). unfold by_id in Hmin. now apply Z.leb_le.
  - assert (Hnil : filter P accs = []).
    { apply (order_by_nil by_id).
      destruct (order_by by_id (filter P accs)); [reflexivity|discriminate]. }
    intros a Ha. destruct (P a) eqn:HPa; [|reflexivity].
    assert (Hfa : In a (filter P accs)) by (apply filter_In; now split).
    rewrite Hnil in Hfa. contradiction.
Qed.

(** C10: when the configured default account name resolves to no account,
    [get_default_account] does not fail on that: it returns the lowest-id
    account that is neither soft-deleted nor named 'Outside source'; if
    every account that is not soft-deleted bears that name, the lowest-id
    one of these; and it raises its error only when no account is left
    that is not soft-deleted. *)
Theorem default_account_falls_back (w : world) (name : string) :
  index (load_config (config_file w)) "default_account" = VStr name ->
  find_account w name = Ok None ->
  match get_default_account w with
  | Ok (id, nm) =>
      exists b, id = a_id b /\ nm = a_name b
        /\ (lowest_id (fun a => live a && negb (outside_source a)) (accounts w) b
            \/ ((forall a, In a (accounts w) -> live a = true ->
                   a_name a = "Outside source")
                /\ lowest_id live (accounts w) b))
  | Raise e =>
      e = NoAccountsFound /\ forall a, In a (accounts w) -> live a = false
  end.
Proof.
  intros Hcfg Hfind.
  assert (Hfall : get_default_account w = default_account_fallback w).
  { unfold get_default_account. rewrite Hcfg. simpl.
    destruct (String.eqb name ""); [reflexivity|]. now rewrite Hfind. }
  rewrite Hfall. unfold default_account_fallback, first_non_outside, first_account.
  pose proof (first_by_id (fun a => live a && negb (outside_source a))
                (accounts w)) as H1.
  pose proof (first_by_id live (accounts w)) as H2.
  unfold live, outside_source in *.
  destruct (fetchone (order_by by_id (filter _ (accounts w)))) as [b|] in H1 |- *.
  - exists b. auto.
  - destruct (fetchone (order_by by_id (filter _ (accounts w)))) as [b|]
      in H2 |- *.
    + exists b. split; [reflexivity|]. split; [reflexivity|]. right.
      split; [|exact H2].
      intros a Ha Hlive. specialize (H1 a Ha). rewrite Hlive in H1.
      simpl in H1. apply negb_false_iff in H1. now apply String.eqb_eq.
    + split; [reflexivity|]. exact H2.
Qed.

Lemma default_account_falls_back_witness :
  index (load_config (config_file stale_world)) "default_account"
  = VStr "Wallet"
  /\ find_account stale_world "Wallet" = Ok None
  /\ match get_default_account stale_world with
     | Ok (id, nm) =>
         exists b, id = a_id b /\ nm = a_name b
           /\ (lowest_id (fun a => live a && negb (outside_source a))
                         (accounts stale_world) b
               \/ ((forall a, In a (accounts stale_world) -> live a = true ->
                      a_name a = "Outside source")
                   /\ lowest_id live (accounts stale_world) b))
     | Raise e =>
         e = NoAccountsFound
         /\ forall a, In a (accounts stale_world) -> live a = false
     end.
Proof.
  split; [reflexivity|]. split; [reflexivity|].
  apply (default_account_falls_back stale_world "Wallet").
  - reflexivity.
  - reflexivity.
Defined.

Example default_account_stale :
  get_default_account stale_world = Ok (1, "Checking")
  /\ get_default_account (set_accounts [savings; outside; closed_account] stale_world)
     = Ok (2, "Savings")
  /\ get_default_account (set_accounts [closed_account; outside] stale_world)
     = Ok (3, "Outside source")
  /\ get_default_account (set_accounts [closed_account] stale_world)
     = Raise NoAccountsFound.
Proof. repeat split. Qed.

(** ** The configuration file *)

Section ConfigFacts.

Lemma dict_get_set (d : dict) (k k' : string) (v : value) :
  dict_get (dict_set d k v) k'
  = if String.eqb k k' then Some v else dict_get d k'.
Proof.
  induction d as [|[k0 v0] d IH]; simpl.
  - reflexivity.
  - destruct (String.eqb_spec k0 k) as [->|Hk0]; simpl.
    + destruct (String.eqb k k'); reflexivity.
    + rewrite IH. destruct (String.eqb_spec k0 k') as [->|Hk0'].
      * destruct (String.eqb_spec k k') as [->|_]; [contradiction|reflexivity].
      * reflexivity.
Qed.

Lemma dict_get_update (d other : dict) (k : string) :
  dict_get (dict_update d other) k
  = match lookup_last other k with
    | Some v => Some v
    | None => dict_get d k
    end.
Proof.
  unfold dict_update. revert d.
  induction other as [|[k0 v0] other IH]; intros d; simpl.
  - reflexivity.
  - rewrite IH, dict_get_set.
    destruct (lookup_last other k); [reflexivity|].
    destruct (String.eqb k0 k); reflexivity.
Qed.

Lemma dict_get_json_load (members : list (string * value)) (k : string) :
  dict_get (json_load members) k = lookup_last members k.
Proof.
  unfold json_load. rewrite dict_get_update.
  destruct (lookup_last members k); reflexivity.
Qed.

Lemma dict_get_absent (d : dict) (k : string) :
  ~ In k (map fst d) -> dict_get d k = None.
Proof.
  induction d as [|[k0 v0] d IH]; simpl; intros H; [reflexivity|].
  destruct (String.eqb_spec k0 k) as [->|_]; [tauto|]. apply IH. tauto.
Qed.

Lemma keys_dict_set (d : dict) (k k' : string) (v : value) :
  In k' (map fst (dict_set d k v)) -> k' = k \/ In k' (map fst d).
Proof.
  induction d as [|[k0 v0] d IH]; simpl.
  - intros [<-|[]]. now left.
  - destruct (String.eqb_spec k0 k) as [->|_]; simpl.
    + tauto.
    + intros [H|H]; [tauto|]. apply IH in H. tauto.
Qed.

Lemma NoDup_dict_set (d : dict) (k : string) (v : value) :
  NoDup (map fst d) -> NoDup (map fst (dict_set d k v)).
Proof.
  induction d as [|[k0 v0] d IH]; simpl; intros H.
  - repeat constructor. simpl. tauto.
  - inversion H as [|? ? Hk0 Hd]; subst.
    destruct (String.eqb_spec k0 k) as [->|Hne]; simpl.
    + constructor; assumption.
    + constructor; [|now apply IH].
      intros Hin. apply keys_dict_set in Hin. destruct Hin; [congruence|tauto].
Qed.

Lemma NoDup_dict_update (d other : dict) :
  NoDup (map fst d) -> NoDup (map fst (dict_update d other)).
Proof.
  unfold dict_update. revert d.
  induction other as [|[k0 v0] other IH]; intros d H; simpl; [exact H|].
  apply IH. now apply NoDup_dict_set.
Qed.

Lemma lookup_last_unique (d : dict) (k : string) :
  NoDup (map fst d) -> lookup_last d k = dict_get d k.
Proof.
  induction d as [|[k0 v0] d IH]; simpl; intros H; [reflexivity|].
  inversion H as [|? ? Hk0 Hd]; subst. rewrite (IH Hd).
  destruct (String.eqb_spec k0 k) as [->|_].
  - now rewrite (dict_get_absent d k Hk0).
  - destruct (dict_get d k); reflexivity.
Qed.

Lemma lookup_last_json_load (members : list (string * value)) (k : string) :
  lookup_last (json_load members) k = lookup_last members k.
Proof.
  rewrite lookup_last_unique; [apply dict_get_json_load|].
  apply NoDup_dict_update. constructor.
Qed.

Lemma NoDup_load_config (f : file) : NoDup (map fst (load_config f)).
Proof.
  assert (Hd : NoDup (map fst defaults)).
  { repeat constructor; simpl; intuition discriminate. }
  destruct f; simpl; try exact Hd.
  now apply NoDup_dict_update.
Qed.

(** The four settings are keys of every loaded configuration. *)
Lemma load_config_has_settings (f : file) (k : string) :
  In k (map fst defaults) -> dict_get (load_config f) k <> None.
Proof.
  intros Hk.
  assert (Hd : dict_get defaults k <> None).
  { simpl in Hk. decompose [or] Hk; subst; try discriminate. contradiction. }
  destruct f; simpl; try exact Hd.
  rewrite dict_get_update. destruct (lookup_last (json_load members) k);
    [discriminate | exact Hd].
Qed.

End ConfigFacts.

(** C9: loading a saved configuration gives every key of the file the
    value the file gives it, known to the tool or not, and every other key
    its built-in default; what [save_config] then writes is that whole
    mapping, which loads back to the same values. *)
Theorem get_config_merges (w : world) (members : list (string * value))
  (k : string) :
  let loaded := load_config (Saved members) in
  dict_get loaded k
  = match lookup_last members k with
    | Some v => Some v
    | None => dict_get defaults k
    end
  /\ dict_get (json_load members) k = lookup_last members k
  /\ get_config (set_config_file (Saved members) w)
     = (Ok loaded, set_config_file (Saved members) w)
  /\ save_config loaded w = (Ok tt, set_config_file (Saved loaded) w)
  /\ dict_get (load_config (Saved loaded)) k = dict_get loaded k.
Proof.
  intros loaded.
  assert (Hget : dict_get loaded k
                 = match lookup_last members k with
                   | Some v => Some v
                   | None => dict_get defaults k
                   end).
  { unfold loaded. simpl. rewrite dict_get_update, lookup_last_json_load.
    reflexivity. }
  split; [exact Hget|]. split; [apply dict_get_json_load|].
  split; [reflexivity|]. split; [reflexivity|].
  change (load_config (Saved loaded))
    with (dict_update defaults (json_load loaded)).
  rewrite dict_get_update, lookup_last_json_load.
  rewrite (lookup_last_unique loaded k) by apply NoDup_load_config.
  destruct (dict_get loaded k) eqn:E; [reflexivity|].
  destruct (lookup_last members k); [discriminate|]. now symmetry.
Qed.

Example get_config_stale :
  load_config (Saved stale_members)
  = [ ("default_account", VStr "Wallet");
      ("default_category", VNone);
      ("confirm_undo", VBool true);
      ("show_balance_after_add", VBool false);
      ("theme", VStr "dark") ].
Proof. reflexivity. Qed.

(** [config set] writes the unknown key back with the rest. *)
Example config_set_keeps_unknown :
  config_file (snd (config_set "confirm_undo" "off" stale_world))
  = Saved [ ("default_account", VStr "Wallet");
            ("default_category", VNone);
            ("confirm_undo", VBool false);
            ("show_balance_after_add", VBool false);
            ("theme", VStr "dark") ].
Proof. reflexivity. Qed.

(** ** [transfer] *)

(** C5: when both account names resolve to one id, [transfer] ends in an
    error and leaves the world as it was; so a transfer that does go
    through appends one record, flagged as a transfer, without category,
    whose destination is an account other than its source. *)
Theorem transfer_needs_two_accounts
  (w : world) (amount : Q) (label from_account to_account : string)
  (date_str : option string) :
  (forall id n1 n2,
      find_account w from_account = Ok (Some (id, n1)) ->
      find_account w to_account = Ok (Some (id, n2)) ->
      exists e,
        transfer amount label from_account to_account date_str w
        = (Raise e, w))
  /\ (forall w',
        transfer amount label from_account to_account date_str w
        = (Ok tt, w') ->
        exists r to_id,
          records w' = (records w ++ [r])%list
          /\ r_isTransfer r = true
          /\ r_categoryId r = None
          /\ r_amount r = amount
          /\ r_transferToAccountId r = Some to_id
          /\ to_id <> r_accountId r
          /\ (exists n, find_account w from_account
                        = Ok (Some (r_accountId r, n)))
          /\ (exists n, find_account w to_account = Ok (Some (to_id, n)))).
Proof.
  split.
  - intros id n1 n2 Hfrom Hto. unfold transfer.
    destruct (Qle_bool amount 0); [eexists; reflexivity|].
    unfold bind, query. rewrite Hfrom, Hto, Z.eqb_refl.
    eexists. reflexivity.
  - intros w'. unfold transfer.
    destruct (Qle_bool amount 0); [discriminate|].
    unfold bind, query.
    destruct (find_account w from_account) as [[[from_id from_name]|]|e];
      try discriminate.
    destruct (find_account w to_account) as [[[to_id to_name]|]|e];
      try discriminate.
    destruct (from_id =? to_id) eqn:Hne; [discriminate|].
    apply Z.eqb_neq in Hne.
    unfold parse_date.
    destruct (truthy date_str) as [s|]; [destruct (strptime s)|];
      try discriminate;
      intros H; inversion H; subst; clear H;
      (eexists; exists to_id; simpl;
       repeat split; try reflexivity; eauto; congruence).
Qed.

Lemma transfer_needs_two_accounts_witness :
  (find_account household "check" = Ok (Some (1, "Checking"))
   /\ find_account household "CHECKING" = Ok (Some (1, "Checking"))
   /\ exists e,
        transfer 500 "Move" "check" "CHECKING" None household
        = (Raise e, household))
  /\ (transfer 500 "Move" "check" "sav" None household
      = (Ok tt, snd (transfer 500 "Move" "check" "sav" None household))
      /\ exists r to_id,
           records (snd (transfer 500 "Move" "check" "sav" None household))
           = (records household ++ [r])%list
           /\ r_isTransfer r = true
           /\ r_categoryId r = None
           /\ r_amount r = 500%Q
           /\ r_transferToAccountId r = Some to_id
           /\ to_id <> r_accountId r
           /\ (exists n, find_account household "check"
                         = Ok (Some (r_accountId r, n)))
           /\ (exists n, find_account household "sav" = Ok (Some (to_id, n)))).
Proof.
  split.
  - split; [reflexivity|]. split; [reflexivity|].
    apply (proj1 (transfer_needs_two_accounts household 500 "Move"
                    "check" "CHECKING" None) 1 "Checking" "Checking");
      reflexivity.
  - split; [reflexivity|].
    apply (proj2 (transfer_needs_two_accounts household 500 "Move"
                    "check" "sav" None)).
    reflexivity.
Defined.

(** ** [add] *)

(** C6, as stated, fails: a positive amount with an account and a category
    that resolve does not make [add] insert a record when the date given
    is not a date; [add] then ends in an error and inserts nothing. *)
Lemma add_rejects_bad_date :
  (0 < 5)%Q
  /\ account_resolves household (Some "check") 1
  /\ category_resolves household (Some "salary") (Some 3)
  /\ add 5 "Lunch" (Some "salary") (Some "check") false (Some "tomorrow")
         household
     = (Raise InvalidDateFormat, household)
  /\ ~ exists r w',
         add 5 "Lunch" (Some "salary") (Some "check") false (Some "tomorrow")
             household = (Ok tt, w')
         /\ records w' = (records household ++ [r])%list.
Proof.
  split; [reflexivity|].
  split; [exists "Checking"; reflexivity|].
  split; [exists 3, "Salary"; split; reflexivity|].
  split; [reflexivity|].
  intros (r & w' & H & _). discriminate H.
Qed.

(** C6 (amended): for an amount above zero, an account and a category that
    resolve, and a date that is either not given or well-formed, [add]
    appends exactly one record: a plain one carrying that amount, that
    label, the resolved account id and the resolved category id, which is
    null when no category is given and none is configured; for an amount
    of zero or less [add] ends in the error 'Amount must be positive' and
    leaves the world as it was. *)
Theorem add_inserts_one_record
  (w : world) (amount : Q) (label : string) (category account : option string)
  (income : bool) (date_str : option string) (aid : Z) (cid : option Z) :
  ((0 < amount)%Q ->
   account_resolves w account aid ->
   category_resolves w category cid ->
   date_usable date_str ->
   exists r w',
     add amount label category account income date_str w = (Ok tt, w')
     /\ records w' = (records w ++ [r])%list
     /\ accounts w' = accounts w
     /\ categories w' = categories w
     /\ r_amount r = amount
     /\ r_label r = label
     /\ r_accountId r = aid
     /\ r_categoryId r = cid
     /\ r_isIncome r = income
     /\ r_isTransfer r = false
     /\ r_transferToAccountId r = None
     /\ (truthy category = None ->
         search_text (index (load_config (config_file w)) "default_category")
         = None ->
         r_categoryId r = None))
  /\ ((amount <= 0)%Q ->
      add amount label category account income date_str w
      = (Raise AmountMustBePositive, w)).
Proof.
  split.
  - intros Hpos Hacc Hcat Hdate. unfold add.
    assert (Hle : Qle_bool amount 0 = false).
    { destruct (Qle_bool amount 0) eqn:E; [|reflexivity].
      apply Qle_bool_iff in E. exfalso. apply (Qlt_not_le _ _ Hpos E). }
    rewrite Hle.
    unfold account_resolves in Hacc. unfold category_resolves in Hcat.
    unfold date_usable in Hdate. unfold bind, query, parse_date, ret, raise.
    assert (Hnone : truthy category = None ->
              search_text (index (load_config (config_file w))
                                 "default_category") = None ->
              cid = None).
    { intros Ht Hs. rewrite Ht in Hcat. destruct Hcat as (found & Hf & ->).
      unfold get_default_category in Hf. rewrite Hs in Hf.
      inversion Hf. reflexivity. }
    destruct (truthy account) as [a|].
    + destruct Hacc as [an Hacc]. rewrite Hacc. cbv beta iota.
      destruct (truthy category) as [c|].
      * destruct Hcat as (id & cn & Hcat & ->). rewrite Hcat. cbv beta iota.
        destruct (truthy date_str) as [s|];
          [destruct (strptime s); [|contradiction]|];
          do 2 eexists; simpl; repeat split; auto.
      * destruct Hcat as (found & Hcat & ->). rewrite Hcat. cbv beta iota.
        destruct (truthy date_str) as [s|];
          [destruct (strptime s); [|contradiction]|];
          do 2 eexists; simpl; repeat split; auto.
    + destruct Hacc as [an Hacc]. rewrite Hacc. cbv beta iota.
      destruct (truthy category) as [c|].
      * destruct Hcat as (id & cn & Hcat & ->). rewrite Hcat. cbv beta iota.
        destruct (truthy date_str) as [s|];
          [destruct (strptime s); [|contradiction]|];
          do 2 eexists; simpl; repeat split; auto.
      * destruct Hcat as (found & Hcat & ->). rewrite Hcat. cbv beta iota.
        destruct (truthy date_str) as [s|];
          [destruct (strptime s); [|contradiction]|];
          do 2 eexists; simpl; repeat split; auto.
  - intros Hle. unfold add.
    apply Qle_bool_iff in Hle. rewrite Hle. reflexivity.
Qed.

Lemma add_inserts_one_record_witness :
  ((0 < 50)%Q
   /\ account_resolves household (Some "Checking") 1
   /\ category_resolves household None None
   /\ date_usable (Some "2025-01-03")
   /\ exists r w',
        add 50 "Groceries" None (Some "Checking") false (Some "2025-01-03")
            household = (Ok tt, w')
        /\ records w' = (records household ++ [r])%list
        /\ accounts w' = accounts household
        /\ categories w' = categories household
        /\ r_amount r = 50%Q
        /\ r_label r = "Groceries"
        /\ r_accountId r = 1
        /\ r_categoryId r = None
        /\ r_isIncome r = false
        /\ r_isTransfer r = false
        /\ r_transferToAccountId r = None
        /\ (truthy None = None ->
            search_text (index (load_config (config_file household))
                               "default_category") = None ->
            r_categoryId r = None))
  /\ ((-3 <= 0)%Q
      /\ add (-3) "Groceries" None (Some "Checking") false None household
         = (Raise AmountMustBePositive, household)).
Proof.
  split.
  - split; [reflexivity|].
    split; [exists "Checking"; reflexivity|].
    split; [exists None; split; reflexivity|].
    split; [discriminate|].
    apply (proj1 (add_inserts_one_record household 50 "Groceries" None
                    (Some "Checking") false (Some "2025-01-03") 1 None)).
    + reflexivity.
    + exists "Checking"; reflexivity.
    + exists None; split; reflexivity.
    + discriminate.
  - split; [discriminate|].
    apply (proj2 (add_inserts_one_record household (-3) "Groceries" None
                    (Some "Checking") false None 1 None)).
    discriminate.
Defined.

(** ** [edit] *)

Lemma Forall2_map_self {A} (R : A -> A -> Prop) (f : A -> A) (l : list A) :
  (forall x, R x (f x)) -> Forall2 R l (map f l).
Proof. intros H. induction l; simpl; constructor; auto. Qed.

(** C7, as stated, fails: an [edit] that names a new label only also
    changes the update timestamp of the record, which the user did not
    (and cannot) specify. *)
Lemma edit_touches_updatedAt :
  let after :=
    edit 1 None (Some "To the savings account") None None None None household
  in
  fst after = Ok tt
  /\ map r_label (records household)
     = ["Groceries"; "Monthly salary"; "Move to savings"]
  /\ map r_label (records (snd after))
     = ["Groceries"; "Monthly salary"; "To the savings account"]
  /\ map r_updatedAt (records household) = [1000; 2000; 3000]
  /\ map r_updatedAt (records (snd after)) = [1000; 2000; 5000]
  /\ map r_updatedAt (records (snd after))
     <> map r_updatedAt (records household).
Proof.
  repeat split. discriminate.
Qed.

(** C7 (amended): after a successful [edit], accounts and categories are
    as before and so is every record but those with the id of the chosen
    one (the [num]-th most recently created); such a record keeps its id,
    creation timestamp, in-progress flag,
    transfer flag and transfer destination, and keeps every one of amount,
    label, category, account, date and income flag that the command line
    does not specify, while each of these that is specified takes the new
    value; its update timestamp is set to the current time. *)
Theorem edit_changes_only_specified
  (w w' : world) (num : Z) (amount : option Q) (new_label : option string)
  (category account : option string) (date_str : option string)
  (is_income : option bool) :
  edit num amount new_label category account date_str is_income w
  = (Ok tt, w') ->
  accounts w' = accounts w
  /\ categories w' = categories w
  /\ Forall2
       (fun r r' =>
          r' = r
          \/ (option_map r_id
                (nth_error (order_by by_createdAt_desc (records w))
                           (Z.to_nat (num - 1))) = Some (r_id r)
              /\ r_id r' = r_id r
              /\ r_createdAt r' = r_createdAt r
              /\ r_isInProgress r' = r_isInProgress r
              /\ r_isTransfer r' = r_isTransfer r
              /\ r_transferToAccountId r' = r_transferToAccountId r
              /\ r_updatedAt r' = clock w (tick w)
              /\ r_amount r' = match amount with
                               | Some a => a
                               | None => r_amount r
                               end
              /\ r_label r' = match new_label with
                              | Some l => l
                              | None => r_label r
                              end
              /\ (category = None -> r_categoryId r' = r_categoryId r)
              /\ (account = None -> r_accountId r' = r_accountId r)
              /\ (date_str = None -> r_date r' = r_date r)
              /\ r_isIncome r' = match is_income with
                                 | Some b => b
                                 | None => r_isIncome r
                                 end))
       (records w) (records w').
Proof.
  unfold edit.
  destruct (is_null amount && is_null new_label && is_null category
            && is_null account && is_null date_str && is_null is_income);
    [discriminate|].
  unfold bind, get.
  destruct (nth_error (order_by by_createdAt_desc (records w))
                      (Z.to_nat (num - 1))) as [target|].
  2:{ intros H. inversion H; subst. repeat split.
      rewrite <- (map_id (records w')) at 2.
      apply Forall2_map_self. intros x. now left. }
  unfold field, query, ret, raise, datetime_now, update_record.
  destruct amount as [a|]; [destruct (Qle_bool a 0); [discriminate|]|];
  destruct new_label as [l|];
  (destruct category as [c|];
   [destruct (find_category w c) as [[[cid cn]|]|e]; try discriminate|]);
  (destruct account as [ac|];
   [destruct (find_account w ac) as [[[aid an]|]|e]; try discriminate|]);
  (destruct date_str as [s|]; [destruct (strptime s); try discriminate|]);
  destruct is_income as [b|];
  intros H; inversion H; subst; clear H;
  (split; [reflexivity|]; split; [reflexivity|];
   apply Forall2_map_self; intros x;
   destruct (r_id x =? r_id target) eqn:E;
   [right; apply Z.eqb_eq in E; simpl; rewrite E;
    repeat split; intros; try reflexivity; discriminate
   | now left]).
Qed.

Lemma edit_changes_only_specified_witness :
  let after := edit 2 (Some 1600%Q) None None None None None household in
  after = (Ok tt, snd after)
  /\ accounts (snd after) = accounts household
  /\ categories (snd after) = categories household
  /\ Forall2
       (fun r r' =>
          r' = r
          \/ (option_map r_id
                (nth_error (order_by by_createdAt_desc (records household))
                           (Z.to_nat (2 - 1))) = Some (r_id r)
              /\ r_id r' = r_id r
              /\ r_createdAt r' = r_createdAt r
              /\ r_isInProgress r' = r_isInProgress r
              /\ r_isTransfer r' = r_isTransfer r
              /\ r_transferToAccountId r' = r_transferToAccountId r
              /\ r_updatedAt r' = clock household (tick household)
              /\ r_amount r' = match Some 1600%Q with
                               | Some a => a
                               | None => r_amount r
                               end
              /\ r_label r' = match @None string with
                              | Some l => l
                              | None => r_label r
                              end
              /\ (@None string = None -> r_categoryId r' = r_categoryId r)
              /\ (@None string = None -> r_accountId r' = r_accountId r)
              /\ (@None string = None -> r_date r' = r_date r)
              /\ r_isIncome r' = match @None bool with
                                 | Some b => b
                                 | None => r_isIncome r
                                 end))
       (records household) (records (snd after)).
Proof.
  intros after. split; [reflexivity|].
  apply (edit_changes_only_specified household (snd after) 2 (Some 1600%Q)
           None None None None None).
  reflexivity.
Defined.

(** The second most recently created record is the salary. *)
Example edit_household :
  map (fun r => (r_label r, r_amount r, r_updatedAt r))
      (records (snd (edit 2 (Some 1600%Q) None None None None None household)))
  = [ ("Groceries", 50%Q, 1000);
      ("Monthly salary", 1600%Q, 5000);
      ("Move to savings", 500%Q, 3000) ].
Proof. reflexivity. Qed.

(** ** The resolver *)

Lemma filter_same {A} (f g : A -> bool) (l : list A) :
  (forall x, f x = g x) -> filter f l = filter g l.
Proof. intros H. apply filter_ext. exact H. Qed.

(** For a search text without percent sign or underscore, [find_account]
    and [find_category] are the resolver of the specification: the exact
    match first, the substring match otherwise. *)
Lemma resolver_on_plain_text (w : world) (search : string) :
  wildcard_free search = true ->
  find_account w search
  = resolve a_id a_name a_deletedAt MultipleAccounts (accounts w) search
  /\ find_category w search
     = resolve c_id c_name c_deletedAt MultipleCategories (categories w) search.
Proof.
  intros Hplain. split.
  - unfold find_account, resolve, fetchone.
    rewrite (filter_same
               (fun a => like (LOWER ("%" ++ search ++ "%")) (LOWER (a_name a))
                         && is_null (a_deletedAt a))
               (fun a => contains_nocase search (a_name a)
                         && is_null (a_deletedAt a)))
      by (intros x; now rewrite partial_match_is_substring).
    destruct (filter _ (accounts w)) as [|x l]; simpl; [|reflexivity].
    destruct (filter _ (accounts w)) as [|y [|z l]]; reflexivity.
  - unfold find_category, resolve, fetchone.
    rewrite (filter_same
               (fun c => like (LOWER ("%" ++ search ++ "%")) (LOWER (c_name c))
                         && is_null (c_deletedAt c))
               (fun c => contains_nocase search (c_name c)
                         && is_null (c_deletedAt c)))
      by (intros x; now rewrite partial_match_is_substring).
    destruct (filter _ (categories w)) as [|x l]; simpl; [|reflexivity].
    destruct (filter _ (categories w)) as [|y [|z l]]; reflexivity.
Qed.

(** The example of the specification: "food" is Food, although Food
    Delivery contains it too; "foo" is ambiguous; "del" is Food Delivery;
    "rent" is not found. *)
Example resolver_household :
  find_category household "food" = Ok (Some (1, "Food"))
  /\ find_category household "foo"
     = Raise (MultipleCategories "foo" ["Food"; "Food Delivery"])
  /\ find_category household "del" = Ok (Some (2, "Food Delivery"))
  /\ find_category household "rent" = Ok None
  /\ find_account household "old" = Ok None.
Proof. repeat split. Qed.

(** C3 fails on the code where the search text holds a wildcard of LIKE.
    "s_v" is no part of any account name, so that the resolver of the
    specification finds nothing, yet [find_account] returns Savings; "%" is
    no part of any category name, yet [find_category] reports every
    category as a candidate. *)
Theorem resolver_takes_wildcards :
  existsb (fun a => contains_nocase "s_v" (a_name a)) (accounts household)
  = false
  /\ resolve a_id a_name a_deletedAt MultipleAccounts
             (accounts household) "s_v" = Ok None
  /\ find_account household "s_v" = Ok (Some (2, "Savings"))
  /\ existsb (fun c => contains_nocase "%" (c_name c)) (categories household)
     = false
  /\ resolve c_id c_name c_deletedAt MultipleCategories
             (categories household) "%" = Ok None
  /\ find_category household "%"
     = Raise (MultipleCategories "%" ["Food"; "Food Delivery"; "Salary"]).
Proof. repeat split. Qed.

(** * Further properties of the code *)

(** ** The resolvers *)

Section FindIn.

Context {row : Type} (id : row -> Z) (name : row -> string)
        (deleted : row -> option datetime)
        (ambiguous : string -> list string -> error).

Let exact (search : string) (x : row) : bool :=
  exact_match search (name x) && is_null (deleted x).
Let partial (search : string) (x : row) : bool :=
  partial_match search (name x) && is_null (deleted x).

Lemma like_underscore (q s : string) :
  like (String "_" q) s
  = match s with
    | EmptyString => false
    | String _ s' => like q s'
    end.
Proof. destruct s; reflexivity. Qed.

(** A pattern followed by a percent sign matches its own text: in it the
    wildcards stand for themselves. *)
Lemma like_self (p : string) : like (p ++ "%") p = true.
Proof.
  induction p as [|c p IH].
  - reflexivity.
  - change (String c p ++ "%") with (String c (p ++ "%")).
    destruct (Ascii.eqb_spec c "%") as [->|Hp].
    + rewrite like_percent. apply orb_true_iff. right.
      rewrite like_percent, IH. reflexivity.
    + destruct (Ascii.eqb_spec c "_") as [->|Hu].
      * rewrite like_underscore. exact IH.
      * rewrite like_plain.
        -- now rewrite Ascii.eqb_refl, IH.
        -- unfold is_wildcard. apply orb_false_iff.
           split; now apply Ascii.eqb_neq.
Qed.

(** A name the exact-match query selects is one the partial-match query
    selects too, whatever the search text holds. *)
Lemma exact_is_partial (search nm : string) :
  exact_match search nm = true -> partial_match search nm = true.
Proof.
  unfold exact_match, partial_match. intros H.
  apply String.eqb_eq in H. rewrite H, !LOWER_app.
  change (LOWER "%") with "%".
  change ("%" ++ LOWER search ++ "%") with (String "%" (LOWER search ++ "%")).
  rewrite like_percent, like_self. reflexivity.
Qed.

Lemma filter_nil_iff {A} (f : A -> bool) (l : list A) :
  filter f l = [] <-> forall x, In x l -> f x = false.
Proof.
  split.
  - intros H x Hx. destruct (f x) eqn:E; [|reflexivity].
    assert (Hin : In x (filter f l)) by (apply filter_In; now split).
    rewrite H in Hin. contradiction.
  - intros H. induction l as [|x l IH]; simpl; [reflexivity|].
    rewrite (H x (or_introl eq_refl)). apply IH.
    intros y Hy. apply H. now right.
Qed.

Lemma find_in_sound (rows : list row) (search : string) (i : Z) (n : string) :
  find_in id name deleted ambiguous rows search = Ok (Some (i, n)) ->
  exists x, In x rows /\ id x = i /\ name x = n /\ deleted x = None
            /\ partial_match search (name x) = true.
Proof.
  unfold find_in.
  set (ex := filter _ rows). set (pa := filter _ rows).
  destruct (fetchone ex) as [x|] eqn:Hex.
  - intros H. inversion H; subst. apply fetchone_In in Hex.
    unfold ex in Hex. apply filter_In in Hex. destruct Hex as [Hin Hx].
    apply andb_true_iff in Hx. destruct Hx as [Hn Hd].
    exists x. repeat split; try assumption.
    + destruct (deleted x); [discriminate|reflexivity].
    + now apply exact_is_partial.
  - destruct pa as [|x [|y l]] eqn:Hp; intros H; try discriminate.
    inversion H; subst.
    assert (Hin : In x pa) by (rewrite Hp; now left).
    unfold pa in Hin. apply filter_In in Hin. destruct Hin as [Hin Hx].
    apply andb_true_iff in Hx. destruct Hx as [Hn Hd].
    exists x. repeat split; try assumption.
    destruct (deleted x); [discriminate|reflexivity].
Qed.

Lemma find_in_none (rows : list row) (search : string) :
  find_in id name deleted ambiguous rows search = Ok None
  <-> forall x, In x rows -> deleted x = None ->
                partial_match search (name x) = false.
Proof.
  unfold find_in.
  set (ex := filter _ rows). set (pa := filter _ rows).
  split.
  - destruct (fetchone ex) as [x|]; [discriminate|].
    destruct pa as [|x [|y l]] eqn:Hp; try discriminate.
    intros _ x Hx Hd. unfold pa in Hp.
    pose proof (proj1 (filter_nil_iff _ _) Hp x Hx) as H. cbv beta in H.
    rewrite Hd in H. simpl in H. now rewrite andb_true_r in H.
  - intros H.
    assert (Hp : pa = []).
    { apply filter_nil_iff. intros x Hx.
      destruct (deleted x) eqn:Hd; simpl; [apply andb_false_r|].
      rewrite andb_true_r. now apply H. }
    assert (He : ex = []).
    { apply filter_nil_iff. intros x Hx.
      destruct (deleted x) eqn:Hd; simpl; [apply andb_false_r|].
      rewrite andb_true_r.
      destruct (String.eqb (LOWER (name x)) (LOWER search)) eqn:E;
        [|reflexivity].
      apply exact_is_partial in E. rewrite (H x Hx Hd) in E. discriminate. }
    rewrite He, Hp. reflexivity.
Qed.

Lemma find_in_raise (rows : list row) (search : string) (e : error) :
  find_in id name deleted ambiguous rows search = Raise e ->
  let found := filter (partial search) rows in
  e = ambiguous search (map name found)
  /\ (2 <= List.length found)%nat
  /\ forall x, In x rows -> deleted x = None ->
               exact_match search (name x) = false.
Proof.
  unfold find_in, partial, partial_match.
  set (ex := filter _ rows). set (pa := filter _ rows).
  destruct (fetchone ex) as [x|] eqn:Hex; [discriminate|].
  destruct pa as [|x [|y l]] eqn:Hp; try discriminate.
  intros H. inversion H; subst. simpl. repeat split.
  - lia.
  - intros z Hz Hd.
    assert (He : ex = []) by (destruct ex; [reflexivity|discriminate]).
    unfold ex in He.
    pose proof (proj1 (filter_nil_iff _ _) He z Hz) as Hf. cbv beta in Hf.
    rewrite Hd in Hf. simpl in Hf. now rewrite andb_true_r in Hf.
Qed.

(** The search text counts up to case only (the error repeats it as it
    was typed). *)
Lemma find_in_nocase (rows : list row) (s s' : string) :
  LOWER s = LOWER s' ->
  match find_in id name deleted ambiguous rows s with
  | Ok r => find_in id name deleted ambiguous rows s' = Ok r
  | Raise _ => exists names,
      find_in id name deleted ambiguous rows s = Raise (ambiguous s names)
      /\ find_in id name deleted ambiguous rows s' = Raise (ambiguous s' names)
  end.
Proof.
  intros H. unfold find_in. rewrite !LOWER_app, H.
  destruct (fetchone (filter _ rows)) as [x|]; [reflexivity|].
  destruct (filter _ rows) as [|x [|y l]]; try reflexivity.
  eexists. split; reflexivity.
Qed.

(** Searching for the name that was found finds the same row again. *)
Lemma find_in_again (rows : list row) (search : string) (i : Z) (n : string) :
  find_in id name deleted ambiguous rows search = Ok (Some (i, n)) ->
  find_in id name deleted ambiguous rows n = Ok (Some (i, n)).
Proof.
  intros Hfound.
  assert (Hagain : forall x, In x rows -> deleted x = None ->
            (forall y, In y rows -> deleted y = None ->
                       exact_match (name x) (name y) = true ->
                       fetchone (filter (fun y => String.eqb (LOWER (name y))
                                                              (LOWER (name x))
                                                  && is_null (deleted y)) rows)
                       = Some x) ->
            find_in id name deleted ambiguous rows (name x)
            = Ok (Some (id x, name x))).
  { intros x Hx Hd Hfirst. unfold find_in.
    rewrite (Hfirst x Hx Hd). - reflexivity.
    - unfold exact_match. apply String.eqb_refl. }
  revert Hfound. unfold find_in.
  set (ex := filter _ rows). set (pa := filter _ rows).
  destruct (fetchone ex) as [x|] eqn:Hex.
  - intros H. inversion H; subst.
    assert (Hx : In x ex) by now apply fetchone_In.
    unfold ex in Hx. apply filter_In in Hx. destruct Hx as [Hin Hx].
    apply andb_true_iff in Hx. destruct Hx as [Hn Hd].
    apply String.eqb_eq in Hn.
    apply Hagain; [exact Hin | destruct (deleted x); [discriminate|reflexivity] |].
    intros _ _ _ _. rewrite Hn. exact Hex.
  - destruct pa as [|x [|y l]] eqn:Hp; intros H; try discriminate.
    inversion H; subst.
    assert (Hx : In x pa) by (rewrite Hp; now left).
    unfold pa in Hx. apply filter_In in Hx. destruct Hx as [Hin Hx].
    apply andb_true_iff in Hx. destruct Hx as [Hlike Hlive].
    apply Hagain; [exact Hin | destruct (deleted x); [discriminate|reflexivity] |].
    intros _ _ _ _.
    destruct (filter (fun y => String.eqb (LOWER (name y)) (LOWER (name x))
                               && is_null (deleted y)) rows) as [|z l] eqn:Hf.
    + exfalso.
      pose proof (proj1 (filter_nil_iff _ _) Hf x Hin) as Hc. cbv beta in Hc.
      rewrite String.eqb_refl, Hlive in Hc. discriminate.
    + simpl. f_equal.
      assert (Hz : In z (filter (fun y => String.eqb (LOWER (name y))
                                                     (LOWER (name x))
                                         && is_null (deleted y)) rows))
        by (rewrite Hf; now left).
      apply filter_In in Hz. destruct Hz as [Hz Hzf].
      apply andb_true_iff in Hzf. destruct Hzf as [Hzn Hzd].
      apply String.eqb_eq in Hzn.
      assert (Hzp : In z pa).
      { unfold pa. apply filter_In. split; [exact Hz|].
        now rewrite Hzn, Hlike, Hzd. }
      rewrite Hp in Hzp. destruct Hzp as [Hzp|[]]. now symmetry.
Qed.

End FindIn.

Lemma find_account_in (w : world) (search : string) :
  find_account w search
  = find_in a_id a_name a_deletedAt MultipleAccounts (accounts w) search.
Proof. reflexivity. Qed.

Lemma find_category_in (w : world) (search : string) :
  find_category w search
  = find_in c_id c_name c_deletedAt MultipleCategories (categories w) search.
Proof. reflexivity. Qed.

(** X1: what [find_account] and [find_category] return is a row of their
    table that is not soft-deleted and whose name the partial-match query
    selects; an exact match is always such a row. *)
Theorem resolver_returns_live_match
  (w : world) (search : string) (i : Z) (n : string) :
  (find_account w search = Ok (Some (i, n)) ->
   exists a, In a (accounts w) /\ a_id a = i /\ a_name a = n
             /\ a_deletedAt a = None
             /\ partial_match search (a_name a) = true)
  /\ (find_category w search = Ok (Some (i, n)) ->
      exists c, In c (categories w) /\ c_id c = i /\ c_name c = n
                /\ c_deletedAt c = None
                /\ partial_match search (c_name c) = true).
Proof.
  split; intros H.
  - rewrite find_account_in in H. now apply find_in_sound in H.
  - rewrite find_category_in in H. now apply find_in_sound in H.
Qed.

Lemma resolver_returns_live_match_witness :
  (find_account household "SAV" = Ok (Some (2, "Savings"))
   /\ exists a, In a (accounts household) /\ a_id a = 2 /\ a_name a = "Savings"
                /\ a_deletedAt a = None
                /\ partial_match "SAV" (a_name a) = true)
  /\ (find_category household "deliv" = Ok (Some (2, "Food Delivery"))
      /\ exists c, In c (categories household) /\ c_id c = 2
                   /\ c_name c = "Food Delivery"
                   /\ c_deletedAt c = None
                   /\ partial_match "deliv" (c_name c) = true).
Proof.
  split.
  - split; [reflexivity|].
    apply (proj1 (resolver_returns_live_match household "SAV" 2 "Savings")).
    reflexivity.
  - split; [reflexivity|].
    apply (proj2 (resolver_returns_live_match household "deliv" 2
                    "Food Delivery")).
    reflexivity.
Defined.

(** X2: the resolvers answer 'not found' exactly when the partial-match
    query selects no row that is not soft-deleted; a soft-deleted row is
    never found, whatever the search text. *)
Theorem resolver_not_found_iff (w : world) (search : string) :
  (find_account w search = Ok None
   <-> forall a, In a (accounts w) -> a_deletedAt a = None ->
                 partial_match search (a_name a) = false)
  /\ (find_category w search = Ok None
      <-> forall c, In c (categories w) -> c_deletedAt c = None ->
                    partial_match search (c_name c) = false).
Proof.
  split.
  - rewrite find_account_in. apply find_in_none.
  - rewrite find_category_in. apply find_in_none.
Qed.

Lemma resolver_not_found_iff_witness :
  (forall a, In a (accounts household) -> a_deletedAt a = None ->
             partial_match "old" (a_name a) = false)
  /\ find_account household "old" = Ok None
  /\ find_category household "rent" = Ok None
  /\ forall c, In c (categories household) -> c_deletedAt c = None ->
               partial_match "rent" (c_name c) = false.
Proof.
  assert (H : forall a, In a (accounts household) -> a_deletedAt a = None ->
                        partial_match "old" (a_name a) = false).
  { intros a [<-|[<-|[<-|[<-|[]]]]] Hd; try reflexivity. discriminate Hd. }
  split; [exact H|]. split.
  - apply (proj2 (proj1 (resolver_not_found_iff household "old"))). exact H.
  - split; [reflexivity|].
    apply (proj1 (proj2 (resolver_not_found_iff household "rent"))).
    reflexivity.
Defined.

(** X3: the only error of the resolvers is the ambiguous-match error.  It
    comes with the names of all rows the partial-match query selects among
    those not soft-deleted, at least two, and only when no such row has
    the search text as its name up to case. *)
Theorem resolver_only_error (w : world) (search : string) (e : error) :
  (find_account w search = Raise e ->
   let found :=
     filter (fun a => partial_match search (a_name a)
                      && is_null (a_deletedAt a)) (accounts w) in
   e = MultipleAccounts search (map a_name found)
   /\ (2 <= List.length found)%nat
   /\ forall a, In a (accounts w) -> a_deletedAt a = None ->
                exact_match search (a_name a) = false)
  /\ (find_category w search = Raise e ->
      let found :=
        filter (fun c => partial_match search (c_name c)
                         && is_null (c_deletedAt c)) (categories w) in
      e = MultipleCategories search (map c_name found)
      /\ (2 <= List.length found)%nat
      /\ forall c, In c (categories w) -> c_deletedAt c = None ->
                   exact_match search (c_name c) = false).
Proof.
  split; intros H.
  - rewrite find_account_in in H. now apply find_in_raise in H.
  - rewrite find_category_in in H. now apply find_in_raise in H.
Qed.

Lemma resolver_only_error_witness :
  (find_account household "s"
   = Raise (MultipleAccounts "s" ["Savings"; "Outside source"])
   /\ let found :=
        filter (fun a => partial_match "s" (a_name a)
                         && is_null (a_deletedAt a)) (accounts household) in
      MultipleAccounts "s" ["Savings"; "Outside source"]
      = MultipleAccounts "s" (map a_name found)
      /\ (2 <= List.length found)%nat
      /\ forall a, In a (accounts household) -> a_deletedAt a = None ->
                   exact_match "s" (a_name a) = false)
  /\ (find_category household "foo"
      = Raise (MultipleCategories "foo" ["Food"; "Food Delivery"])
      /\ let found :=
           filter (fun c => partial_match "foo" (c_name c)
                            && is_null (c_deletedAt c)) (categories household) in
         MultipleCategories "foo" ["Food"; "Food Delivery"]
         = MultipleCategories "foo" (map c_name found)
         /\ (2 <= List.length found)%nat
         /\ forall c, In c (categories household) -> c_deletedAt c = None ->
                      exact_match "foo" (c_name c) = false).
Proof.
  split.
  - split; [reflexivity|].
    apply (proj1 (resolver_only_error household "s"
                    (MultipleAccounts "s" ["Savings"; "Outside source"]))).
    reflexivity.
  - split; [reflexivity|].
    apply (proj2 (resolver_only_error household "foo"
                    (MultipleCategories "foo" ["Food"; "Food Delivery"]))).
    reflexivity.
Defined.

(** X4: the resolvers take the search text up to ASCII case: two texts
    that differ in case only give the same answer, and the same candidate
    names when the answer is the ambiguous-match error. *)
Theorem resolver_ignores_case (w : world) (s s' : string) :
  LOWER s = LOWER s' ->
  match find_account w s with
  | Ok r => find_account w s' = Ok r
  | Raise _ => exists names,
      find_account w s = Raise (MultipleAccounts s names)
      /\ find_account w s' = Raise (MultipleAccounts s' names)
  end
  /\ match find_category w s with
     | Ok r => find_category w s' = Ok r
     | Raise _ => exists names,
         find_category w s = Raise (MultipleCategories s names)
         /\ find_category w s' = Raise (MultipleCategories s' names)
     end.
Proof.
  intros H. split.
  - rewrite !find_account_in.
    apply (find_in_nocase a_id a_name a_deletedAt MultipleAccounts _ _ _ H).
  - rewrite !find_category_in.
    apply (find_in_nocase c_id c_name c_deletedAt MultipleCategories _ _ _ H).
Qed.

Lemma resolver_ignores_case_witness :
  LOWER "cHeCk" = LOWER "CHECK"
  /\ match find_account household "cHeCk" with
     | Ok r => find_account household "CHECK" = Ok r
     | Raise _ => exists names,
         find_account household "cHeCk"
         = Raise (MultipleAccounts "cHeCk" names)
         /\ find_account household "CHECK"
            = Raise (MultipleAccounts "CHECK" names)
     end
  /\ match find_category household "cHeCk" with
     | Ok r => find_category household "CHECK" = Ok r
     | Raise _ => exists names,
         find_category household "cHeCk"
         = Raise (MultipleCategories "cHeCk" names)
         /\ find_category household "CHECK"
            = Raise (MultipleCategories "CHECK" names)
     end.
Proof.
  split; [reflexivity|].
  apply (resolver_ignores_case household "cHeCk" "CHECK").
  reflexivity.
Defined.

(** X5: the name a resolver returns resolves to the same row again: the
    stored name of an account or category found by a partial text can
    stand for it from then on. *)
Theorem resolver_finds_name_again
  (w : world) (search : string) (i : Z) (n : string) :
  (find_account w search = Ok (Some (i, n)) ->
   find_account w n = Ok (Some (i, n)))
  /\ (find_category w search = Ok (Some (i, n)) ->
      find_category w n = Ok (Some (i, n))).
Proof.
  split; intros H.
  - rewrite find_account_in in *. now apply find_in_again in H.
  - rewrite find_category_in in *. now apply find_in_again in H.
Qed.

Lemma resolver_finds_name_again_witness :
  (find_account household "sav" = Ok (Some (2, "Savings"))
   /\ find_account household "Savings" = Ok (Some (2, "Savings")))
  /\ (find_category household "deliv" = Ok (Some (2, "Food Delivery"))
      /\ find_category household "Food Delivery"
         = Ok (Some (2, "Food Delivery"))).
Proof.
  split.
  - split; [reflexivity|].
    apply (proj1 (resolver_finds_name_again household "sav" 2 "Savings")).
    reflexivity.
  - split; [reflexivity|].
    apply (proj2 (resolver_finds_name_again household "deliv" 2
                    "Food Delivery")).
    reflexivity.
Defined.

(** ** Defaults and the [config] commands *)

Lemma load_config_none (f : file) (k : string) :
  dict_get (load_config f) k = None -> dict_get defaults k = None.
Proof.
  destruct f; simpl; try (intros H; exact H).
  rewrite dict_get_update.
  destruct (lookup_last (json_load members) k); [discriminate|].
  intros H; exact H.
Qed.

(** Loading what [save_config] wrote after one assignment to a loaded
    configuration. *)
Lemma load_after_set (f : file) (key k : string) (v : value) :
  dict_get (load_config (Saved (dict_set (load_config f) key v))) k
  = if String.eqb key k then Some v else dict_get (load_config f) k.
Proof.
  change (load_config (Saved (dict_set (load_config f) key v)))
    with (dict_update defaults (json_load (dict_set (load_config f) key v))).
  rewrite dict_get_update, lookup_last_json_load.
  rewrite lookup_last_unique
    by (apply NoDup_dict_set, NoDup_load_config).
  rewrite dict_get_set.
  destruct (String.eqb key k); [reflexivity|].
  destruct (dict_get (load_config f) k) eqn:E; [reflexivity|].
  now apply load_config_none in E.
Qed.

Lemma default_account_live (w : world) (i : Z) (n : string) :
  get_default_account w = Ok (i, n) ->
  exists a, In a (accounts w) /\ a_id a = i /\ a_name a = n
            /\ a_deletedAt a = None.
Proof.
  unfold get_default_account.
  assert (Hfall : default_account_fallback w = Ok (i, n) ->
            exists a, In a (accounts w) /\ a_id a = i /\ a_name a = n
                      /\ a_deletedAt a = None).
  { unfold default_account_fallback, first_non_outside, first_account.
    pose proof (first_by_id
                  (fun a => is_null (a_deletedAt a)
                            && negb (String.eqb (a_name a) "Outside source"))
                  (accounts w)) as H1.
    pose proof (first_by_id (fun a => is_null (a_deletedAt a)) (accounts w))
      as H2.
    destruct (fetchone (order_by by_id (filter _ (accounts w)))) as [b|]
      in H1 |- *.
    - intros H. inversion H; subst. destruct H1 as (Hin & HP & _).
      apply andb_true_iff in HP. destruct HP as [HP _].
      exists b. repeat split; try assumption.
      destruct (a_deletedAt b); [discriminate|reflexivity].
    - destruct (fetchone (order_by by_id (filter _ (accounts w)))) as [b|]
        in H2 |- *; [|discriminate].
      intros H. inversion H; subst. destruct H2 as (Hin & HP & _).
      exists b. repeat split; try assumption.
      destruct (a_deletedAt b); [discriminate|reflexivity]. }
  destruct (search_text _) as [name|]; [|exact Hfall].
  destruct (find_account w name) as [[[i' n']|]|e] eqn:Hf;
    [|exact Hfall|discriminate].
  intros H. inversion H; subst.
  destruct (find_account_sound _ _ _ _ Hf) as (a & Ha). exists a. tauto.
Qed.

Lemma default_category_live (w : world) (i : Z) (n : string) :
  get_default_category w = Ok (Some (i, n)) ->
  exists c, In c (categories w) /\ c_id c = i /\ c_name c = n
            /\ c_deletedAt c = None.
Proof.
  unfold get_default_category.
  destruct (search_text _) as [name|]; [|discriminate].
  intros H. rewrite find_category_in in H. apply find_in_sound in H.
  destruct H as (c & Hc). exists c. tauto.
Qed.

(** X6: the default account is always an account that is not
    soft-deleted, and so is the default category when there is one:
    whatever the configuration file says, [get_default_account] and
    [get_default_category] return rows of their tables that are not
    soft-deleted. *)
Theorem defaults_are_live (w : world) (i : Z) (n : string) :
  (get_default_account w = Ok (i, n) ->
   exists a, In a (accounts w) /\ a_id a = i /\ a_name a = n
             /\ a_deletedAt a = None)
  /\ (get_default_category w = Ok (Some (i, n)) ->
      exists c, In c (categories w) /\ c_id c = i /\ c_name c = n
                /\ c_deletedAt c = None).
Proof.
  split.
  - apply default_account_live.
  - apply default_category_live.
Qed.

Lemma defaults_are_live_witness :
  (get_default_account stale_world = Ok (1, "Checking")
   /\ exists a, In a (accounts stale_world) /\ a_id a = 1
                /\ a_name a = "Checking" /\ a_deletedAt a = None)
  /\ (get_default_category
        (set_config_file (Saved [("default_category", VStr "deliv")]) household)
      = Ok (Some (2, "Food Delivery"))
      /\ exists c,
           In c (categories
                   (set_config_file (Saved [("default_category", VStr "deliv")])
                                    household))
           /\ c_id c = 2 /\ c_name c = "Food Delivery"
           /\ c_deletedAt c = None).
Proof.
  split.
  - split; [reflexivity|].
    apply (proj1 (defaults_are_live stale_world 1 "Checking")). reflexivity.
  - split; [reflexivity|].
    apply (proj2 (defaults_are_live
                    (set_config_file (Saved [("default_category", VStr "deliv")])
                                     household) 2 "Food Delivery")).
    reflexivity.
Defined.

(** X7: [config set default_account TEXT], for a text other than 'none'
    that resolves to an account with a name that is not empty, stores that
    name, and from then on the default account is that very account;
    likewise [config set default_category TEXT] and the default
    category. *)
Theorem config_set_default_resolves
  (w : world) (value : string) (i : Z) (n : string) :
  LOWER value <> "none" ->
  n <> "" ->
  (find_account w value = Ok (Some (i, n)) ->
   exists w',
     config_set "default_account" value w = (Ok tt, w')
     /\ dict_get (load_config (config_file w')) "default_account"
        = Some (VStr n)
     /\ get_default_account w' = Ok (i, n))
  /\ (find_category w value = Ok (Some (i, n)) ->
      exists w',
        config_set "default_category" value w = (Ok tt, w')
        /\ dict_get (load_config (config_file w')) "default_category"
           = Some (VStr n)
        /\ get_default_category w' = Ok (Some (i, n))).
Proof.
  intros Hnone Hname.
  assert (Hv : String.eqb (LOWER value) "none" = false)
    by now apply String.eqb_neq.
  assert (Hn : String.eqb n "" = false) by now apply String.eqb_neq.
  split; intros Hfind.
  - unfold config_set, bind, get_config, query, ret, save_config.
    cbn [String.eqb Ascii.eqb Bool.eqb andb]. rewrite Hv, Hfind.
    eexists. split; [reflexivity|].
    cbn [config_file set_config_file]. split.
    + rewrite load_after_set. reflexivity.
    + unfold get_default_account, index. cbn [config_file set_config_file].
      rewrite load_after_set. cbn [String.eqb Ascii.eqb Bool.eqb andb].
      unfold search_text. rewrite Hn.
      change (find_account (set_config_file _ w) n) with (find_account w n).
      rewrite find_account_in in *. apply find_in_again in Hfind.
      now rewrite Hfind.
  - unfold config_set, bind, get_config, query, ret, save_config.
    cbn [String.eqb Ascii.eqb Bool.eqb andb]. rewrite Hv, Hfind.
    eexists. split; [reflexivity|].
    cbn [config_file set_config_file]. split.
    + rewrite load_after_set. reflexivity.
    + unfold get_default_category, index. cbn [config_file set_config_file].
      rewrite load_after_set. cbn [String.eqb Ascii.eqb Bool.eqb andb].
      unfold search_text. rewrite Hn.
      change (find_category (set_config_file _ w) n) with (find_category w n).
      rewrite find_category_in in *. now apply find_in_again in Hfind.
Qed.

Lemma config_set_default_resolves_witness :
  LOWER "sav" <> "none"
  /\ "Savings" <> ""
  /\ LOWER "deliv" <> "none"
  /\ "Food Delivery" <> ""
  /\ (find_account household "sav" = Ok (Some (2, "Savings"))
      /\ exists w',
           config_set "default_account" "sav" household = (Ok tt, w')
           /\ dict_get (load_config (config_file w')) "default_account"
              = Some (VStr "Savings")
           /\ get_default_account w' = Ok (2, "Savings"))
  /\ (find_category household "deliv" = Ok (Some (2, "Food Delivery"))
      /\ exists w',
           config_set "default_category" "deliv" household = (Ok tt, w')
           /\ dict_get (load_config (config_file w')) "default_category"
              = Some (VStr "Food Delivery")
           /\ get_default_category w' = Ok (Some (2, "Food Delivery"))).
Proof.
  split; [discriminate|]. split; [discriminate|].
  split; [discriminate|]. split; [discriminate|]. split.
  - split; [reflexivity|].
    apply (proj1 (config_set_default_resolves household "sav" 2 "Savings"
                    ltac:(discriminate) ltac:(discriminate))).
    reflexivity.
  - split; [reflexivity|].
    apply (proj2 (config_set_default_resolves household "deliv" 2
                    "Food Delivery" ltac:(discriminate) ltac:(discriminate))).
    reflexivity.
Defined.

(** X8: a [config set KEY VALUE] that succeeds is for one of the four
    settings, touches no table, and changes what is loaded afterwards for
    that key only: every other key, known to the tool or not, loads as
    before.  The key then loads as a boolean for the two flags (true for
    true, 1, yes, on in any case), as null for 'none', and else as the
    name the value resolves to. *)
Theorem config_set_changes_one_key (w w' : world) (key value : string) :
  config_set key value w = (Ok tt, w') ->
  accounts w' = accounts w
  /\ categories w' = categories w
  /\ records w' = records w
  /\ In key (map fst defaults)
  /\ (forall k, k <> key ->
        dict_get (load_config (config_file w')) k
        = dict_get (load_config (config_file w)) k)
  /\ exists v,
       dict_get (load_config (config_file w')) key = Some v
       /\ (key = "confirm_undo" \/ key = "show_balance_after_add" ->
           v = VBool (says_true value)
           /\ (says_true value = true \/ says_false value = true))
       /\ (key = "default_account" ->
           (LOWER value = "none" /\ v = VNone)
           \/ exists i n, find_account w value = Ok (Some (i, n))
                          /\ v = VStr n)
       /\ (key = "default_category" ->
           (LOWER value = "none" /\ v = VNone)
           \/ exists i n, find_category w value = Ok (Some (i, n))
                          /\ v = VStr n).
Proof.
  unfold config_set, bind, get_config, query, ret, raise, save_config.
  assert (Hsaved : forall v,
            (Ok tt, set_config_file
                      (Saved (dict_set (load_config (config_file w)) key v)) w)
            = (Ok tt, w') ->
            In key (map fst defaults) ->
            accounts w' = accounts w
            /\ categories w' = categories w
            /\ records w' = records w
            /\ In key (map fst defaults)
            /\ (forall k, k <> key ->
                  dict_get (load_config (config_file w')) k
                  = dict_get (load_config (config_file w)) k)
            /\ dict_get (load_config (config_file w')) key = Some v).
  { intros v H Hkey. inversion H; subst. cbn [config_file set_config_file].
    repeat split; try assumption.
    - intros k Hk. rewrite load_after_set.
      destruct (String.eqb_spec key k); [congruence|reflexivity].
    - rewrite load_after_set, String.eqb_refl. reflexivity. }
  destruct (String.eqb_spec key "default_account") as [->|H1].
  { destruct (String.eqb (LOWER value) "none") eqn:Hv.
    - cbv beta iota. intros H. apply Hsaved in H; [|simpl; tauto].
      destruct H as (? & ? & ? & ? & ? & ?). repeat (split; [assumption|]).
      exists VNone. split; [assumption|]. apply String.eqb_eq in Hv.
      split; [intros [?|?]; discriminate|].
      split; [intros _; now left | intros ?; discriminate].
    - destruct (find_account w value) as [[[i n]|]|e] eqn:Hf;
        cbv beta iota; try discriminate.
      intros H. apply Hsaved in H; [|simpl; tauto].
      destruct H as (? & ? & ? & ? & ? & ?). repeat (split; [assumption|]).
      exists (VStr n). split; [assumption|].
      split; [intros [?|?]; discriminate|].
      split; [intros _; right; eauto | intros ?; discriminate]. }
  destruct (String.eqb_spec key "default_category") as [->|H2].
  { destruct (String.eqb (LOWER value) "none") eqn:Hv.
    - cbv beta iota. intros H. apply Hsaved in H; [|simpl; tauto].
      destruct H as (? & ? & ? & ? & ? & ?). repeat (split; [assumption|]).
      exists VNone. split; [assumption|]. apply String.eqb_eq in Hv.
      split; [intros [?|?]; discriminate|].
      split; [intros ?; discriminate | intros _; now left].
    - destruct (find_category w value) as [[[i n]|]|e] eqn:Hf;
        cbv beta iota; try discriminate.
      intros H. apply Hsaved in H; [|simpl; tauto].
      destruct H as (? & ? & ? & ? & ? & ?). repeat (split; [assumption|]).
      exists (VStr n). split; [assumption|].
      split; [intros [?|?]; discriminate|].
      split; [intros ?; discriminate | intros _; right; eauto]. }
  destruct (String.eqb_spec key "confirm_undo") as [->|H3].
  { destruct (says_true value) eqn:Ht; [|destruct (says_false value) eqn:Hf];
      cbv beta iota; try discriminate;
      intros H; (apply Hsaved in H; [|simpl; tauto]);
      destruct H as (? & ? & ? & ? & ? & ?); repeat (split; [assumption|]);
      eexists; (split; [eassumption|]);
      (split; [intros _; auto|]);
      split; intros ?; discriminate. }
  destruct (String.eqb_spec key "show_balance_after_add") as [->|H4].
  { destruct (says_true value) eqn:Ht; [|destruct (says_false value) eqn:Hf];
      cbv beta iota; try discriminate;
      intros H; (apply Hsaved in H; [|simpl; tauto]);
      destruct H as (? & ? & ? & ? & ? & ?); repeat (split; [assumption|]);
      eexists; (split; [eassumption|]);
      (split; [intros _; auto|]);
      split; intros ?; discriminate. }
  cbv beta iota. discriminate.
Qed.

Lemma config_set_changes_one_key_witness :
  let after := config_set "confirm_undo" "OFF" stale_world in
  after = (Ok tt, snd after)
  /\ accounts (snd after) = accounts stale_world
  /\ categories (snd after) = categories stale_world
  /\ records (snd after) = records stale_world
  /\ In "confirm_undo" (map fst defaults)
  /\ (forall k, k <> "confirm_undo" ->
        dict_get (load_config (config_file (snd after))) k
        = dict_get (load_config (config_file stale_world)) k)
  /\ exists v,
       dict_get (load_config (config_file (snd after))) "confirm_undo" = Some v
       /\ ("confirm_undo" = "confirm_undo"
           \/ "confirm_undo" = "show_balance_after_add" ->
           v = VBool (says_true "OFF")
           /\ (says_true "OFF" = true \/ says_false "OFF" = true))
       /\ ("confirm_undo" = "default_account" ->
           (LOWER "OFF" = "none" /\ v = VNone)
           \/ exists i n, find_account stale_world "OFF" = Ok (Some (i, n))
                          /\ v = VStr n)
       /\ ("confirm_undo" = "default_category" ->
           (LOWER "OFF" = "none" /\ v = VNone)
           \/ exists i n, find_category stale_world "OFF" = Ok (Some (i, n))
                          /\ v = VStr n).
Proof.
  intros after. split; [reflexivity|].
  apply (config_set_changes_one_key stale_world (snd after) "confirm_undo" "OFF").
  reflexivity.
Defined.

(** ** Commands that end in an error *)

Lemma add_failed (w w' : world) (e : error) (amount : Q) (label : string)
  (category account : option string) (income : bool)
  (date_str : option string) :
  add amount label category account income date_str w = (Raise e, w') ->
  w' = w.
Proof.
  unfold add.
  destruct (Qle_bool amount 0); [intros H; now inversion H|].
  unfold bind, query, ret, raise, parse_date, datetime_now, insert_record.
  destruct (truthy account) as [a|];
    [destruct (find_account w a) as [[[ai an]|]|e1]
    |destruct (get_default_account w) as [[ai an]|e1]];
    cbv beta iota; try (intros H; now inversion H);
    (destruct (truthy category) as [c|];
     [destruct (find_category w c) as [[[ci cn]|]|e2]
     |destruct (get_default_category w) as [dc|e2]];
     cbv beta iota; try (intros H; now inversion H);
     (destruct (truthy date_str) as [s|]; [destruct (strptime s)|];
      cbv beta iota; try (intros H; now inversion H))).
Qed.

Lemma transfer_failed (w w' : world) (e : error) (amount : Q)
  (label from_account to_account : string) (date_str : option string) :
  transfer amount label from_account to_account date_str w = (Raise e, w') ->
  w' = w.
Proof.
  unfold transfer.
  destruct (Qle_bool amount 0); [intros H; now inversion H|].
  unfold bind, query, ret, raise, parse_date, datetime_now, insert_record.
  destruct (find_account w from_account) as [[[fi fn]|]|e1];
    cbv beta iota; try (intros H; now inversion H).
  destruct (find_account w to_account) as [[[ti tn]|]|e2];
    cbv beta iota; try (intros H; now inversion H).
  destruct (fi =? ti); [intros H; now inversion H|].
  destruct (truthy date_str) as [s|]; [destruct (strptime s)|];
    cbv beta iota; intros H; now inversion H.
Qed.

Lemma edit_failed (w w' : world) (e : error) (num : Z) (amount : option Q)
  (new_label : option string) (category account : option string)
  (date_str : option string) (is_income : option bool) :
  edit num amount new_label category account date_str is_income w
  = (Raise e, w') ->
  w' = w.
Proof.
  unfold edit.
  destruct (is_null amount && is_null new_label && is_null category
            && is_null account && is_null date_str && is_null is_income);
    [intros H; now inversion H|].
  unfold bind, get.
  destruct (nth_error (order_by by_createdAt_desc (records w))
                      (Z.to_nat (num - 1))) as [target|];
    [|discriminate].
  unfold field, query, ret, raise, datetime_now, update_record.
  destruct amount as [a|]; [destruct (Qle_bool a 0)|];
    cbv beta iota; try (intros H; now inversion H);
    destruct new_label as [l|];
    (destruct category as [c|];
     [destruct (find_category w c) as [[[cid cn]|]|e1]|];
     cbv beta iota; try (intros H; now inversion H));
    (destruct account as [ac|];
     [destruct (find_account w ac) as [[[aid an]|]|e2]|];
     cbv beta iota; try (intros H; now inversion H));
    (destruct date_str as [s|]; [destruct (strptime s)|];
     cbv beta iota; try (intros H; now inversion H));
    destruct is_income as [b|]; discriminate.
Qed.

(** X9: [add], [transfer] and [edit] raise every one of their errors
    before they write: when one of them ends in an error, the tables, the
    configuration file and the clock are as they were. *)
Theorem failed_entry_changes_nothing (w w' : world) (e : error) :
  (forall amount label category account income date_str,
      add amount label category account income date_str w = (Raise e, w') ->
      w' = w)
  /\ (forall amount label from_account to_account date_str,
        transfer amount label from_account to_account date_str w
        = (Raise e, w') ->
        w' = w)
  /\ (forall num amount new_label category account date_str is_income,
        edit num amount new_label category account date_str is_income w
        = (Raise e, w') ->
        w' = w).
Proof.
  split; [|split]; intros.
  - eapply add_failed; eassumption.
  - eapply transfer_failed; eassumption.
  - eapply edit_failed; eassumption.
Qed.

Lemma failed_entry_changes_nothing_witness :
  (add 5 "Lunch" (Some "salary") (Some "check") false (Some "tomorrow")
       household
   = (Raise InvalidDateFormat,
      snd (add 5 "Lunch" (Some "salary") (Some "check") false (Some "tomorrow")
               household))
   /\ snd (add 5 "Lunch" (Some "salary") (Some "check") false (Some "tomorrow")
               household) = household)
  /\ (transfer 5 "Move" "check" "s" None household
      = (Raise (MultipleAccounts "s" ["Savings"; "Outside source"]),
         snd (transfer 5 "Move" "check" "s" None household))
      /\ snd (transfer 5 "Move" "check" "s" None household) = household)
  /\ (edit 1 (Some (-5)%Q) (Some "x") None None None None household
      = (Raise AmountMustBePositive,
         snd (edit 1 (Some (-5)%Q) (Some "x") None None None None household))
      /\ snd (edit 1 (Some (-5)%Q) (Some "x") None None None None household)
         = household).
Proof.
  split; [|split].
  - split; [reflexivity|].
    apply (proj1 (failed_entry_changes_nothing household _ InvalidDateFormat)
             5%Q "Lunch" (Some "salary") (Some "check") false (Some "tomorrow")).
    reflexivity.
  - split; [reflexivity|].
    apply (proj1 (proj2 (failed_entry_changes_nothing household _
                           (MultipleAccounts "s" ["Savings"; "Outside source"])))
             5%Q "Move" "check" "s" None).
    reflexivity.
  - split; [reflexivity|].
    apply (proj2 (proj2 (failed_entry_changes_nothing household _
                           AmountMustBePositive))
             1 (Some (-5)%Q) (Some "x") None None None None).
    reflexivity.
Defined.

(** X10: [balance set], [balance adjust] and [config set] leave the world
    as it was when they end in an error, and the two balance commands fail
    only in resolving the account: their read of the stored beginning
    balance always finds the row. *)
Theorem failed_settings_change_nothing (w w' : world) (e : error) :
  (forall account amount,
      balance_set account amount w = (Raise e, w') ->
      w' = w /\ e <> TypeError)
  /\ (forall account amount,
        balance_adjust account amount w = (Raise e, w') ->
        w' = w /\ e <> TypeError)
  /\ (forall key value,
        config_set key value w = (Raise e, w') -> w' = w).
Proof.
  split; [|split].
  - intros account amount. unfold balance_set, bind, query, get, raise.
    destruct (find_account w account) as [[[i n]|]|e1] eqn:Hf;
      cbv beta iota;
      try (intros H; inversion H; split; [reflexivity|discriminate]).
    + destruct (find_account_sound _ _ _ _ Hf) as (a & Ha & Hid & _ & _).
      destruct (select_beginning_exists w a Ha) as [b Hb]. rewrite Hid in Hb.
      rewrite Hb. discriminate.
    + intros H. inversion H; subst. split; [reflexivity|].
      rewrite find_account_in in Hf. apply find_in_raise in Hf.
      destruct Hf as [-> _]. discriminate.
  - intros account amount. unfold balance_adjust, bind, query, get, raise.
    destruct (find_account w account) as [[[i n]|]|e1] eqn:Hf;
      cbv beta iota;
      try (intros H; inversion H; split; [reflexivity|discriminate]).
    + destruct (find_account_sound _ _ _ _ Hf) as (a & Ha & Hid & _ & _).
      destruct (select_beginning_exists w a Ha) as [b Hb]. rewrite Hid in Hb.
      rewrite Hb. discriminate.
    + intros H. inversion H; subst. split; [reflexivity|].
      rewrite find_account_in in Hf. apply find_in_raise in Hf.
      destruct Hf as [-> _]. discriminate.
  - intros key value.
    unfold config_set, bind, get_config, query, ret, raise, save_config.
    destruct (String.eqb key "default_account").
    { destruct (String.eqb (LOWER value) "none"); [discriminate|].
      destruct (find_account w value) as [[[i n]|]|e1];
        cbv beta iota; try discriminate; intros H; now inversion H. }
    destruct (String.eqb key "default_category").
    { destruct (String.eqb (LOWER value) "none"); [discriminate|].
      destruct (find_category w value) as [[[i n]|]|e1];
        cbv beta iota; try discriminate; intros H; now inversion H. }
    destruct (String.eqb key "confirm_undo").
    { destruct (says_true value); [discriminate|].
      destruct (says_false value); [discriminate|].
      intros H; now inversion H. }
    destruct (String.eqb key "show_balance_after_add").
    { destruct (says_true value); [discriminate|].
      destruct (says_false value); [discriminate|].
      intros H; now inversion H. }
    intros H; now inversion H.
Qed.

Lemma failed_settings_change_nothing_witness :
  (balance_set "wallet" 10 household
   = (Raise (AccountNotFound "wallet"), snd (balance_set "wallet" 10 household))
   /\ snd (balance_set "wallet" 10 household) = household
   /\ AccountNotFound "wallet" <> TypeError)
  /\ (balance_adjust "s" 10 household
      = (Raise (MultipleAccounts "s" ["Savings"; "Outside source"]),
         snd (balance_adjust "s" 10 household))
      /\ snd (balance_adjust "s" 10 household) = household
      /\ MultipleAccounts "s" ["Savings"; "Outside source"] <> TypeError)
  /\ (config_set "colour" "blue" household
      = (Raise (UnknownConfigKey "colour"),
         snd (config_set "colour" "blue" household))
      /\ snd (config_set "colour" "blue" household) = household).
Proof.
  split; [|split].
  - split; [reflexivity|].
    apply (proj1 (failed_settings_change_nothing household _
                    (AccountNotFound "wallet")) "wallet" 10%Q).
    reflexivity.
  - split; [reflexivity|].
    apply (proj1 (proj2 (failed_settings_change_nothing household _
                           (MultipleAccounts "s" ["Savings"; "Outside source"])))
             "s" 10%Q).
    reflexivity.
  - split; [reflexivity|].
    apply (proj2 (proj2 (failed_settings_change_nothing household _
                           (UnknownConfigKey "colour"))) "colour" "blue").
    reflexivity.
Defined.

(** ** What a successful [add] or [transfer] did *)

Lemma add_done (w w' : world) (amount : Q) (label : string)
  (category account : option string) (income : bool)
  (date_str : option string) :
  add amount label category account income date_str w = (Ok tt, w') ->
  exists aid cid date now,
    (0 < amount)%Q
    /\ account_resolves w account aid
    /\ category_resolves w category cid
    /\ (now = clock w (tick w) \/ now = clock w (S (tick w)))
    /\ accounts w' = accounts w
    /\ categories w' = categories w
    /\ config_file w' = config_file w
    /\ records w'
       = (records w
          ++ [mkRecord (new_id w) now now label amount date aid cid
                       false income false None])%list.
Proof.
  unfold add, account_resolves, category_resolves.
  destruct (Qle_bool amount 0) eqn:Hle; [discriminate|].
  assert (Hpos : (0 < amount)%Q).
  { apply Qnot_le_lt. intros H. apply Qle_bool_iff in H. congruence. }
  unfold bind, query, ret, raise, parse_date, datetime_now, insert_record.
  destruct (truthy account) as [a|];
    [destruct (find_account w a) as [[[ai an]|]|e1]
    |destruct (get_default_account w) as [[ai an]|e1]];
    cbv beta iota; try discriminate;
    (destruct (truthy category) as [c|];
     [destruct (find_category w c) as [[[ci cn]|]|e2]
     |destruct (get_default_category w) as [dc|e2]];
     cbv beta iota; try discriminate;
     (destruct (truthy date_str) as [s|]; [destruct (strptime s)|];
      cbv beta iota; try discriminate;
      intros H; inversion H; subst; clear H;
      do 4 eexists; cbn [accounts categories records config_file set_records
                         clock tick];
      repeat split; eauto)).
Qed.

Lemma transfer_done (w w' : world) (amount : Q) (label : string)
  (from_account to_account : string) (date_str : option string) :
  transfer amount label from_account to_account date_str w = (Ok tt, w') ->
  exists from_id from_name to_id to_name date now,
    (0 < amount)%Q
    /\ find_account w from_account = Ok (Some (from_id, from_name))
    /\ find_account w to_account = Ok (Some (to_id, to_name))
    /\ from_id <> to_id
    /\ (now = clock w (tick w) \/ now = clock w (S (tick w)))
    /\ accounts w' = accounts w
    /\ categories w' = categories w
    /\ config_file w' = config_file w
    /\ records w'
       = (records w
          ++ [mkRecord (new_id w) now now label amount date from_id None
                       false false true (Some to_id)])%list.
Proof.
  unfold transfer.
  destruct (Qle_bool amount 0) eqn:Hle; [discriminate|].
  assert (Hpos : (0 < amount)%Q).
  { apply Qnot_le_lt. intros H. apply Qle_bool_iff in H. congruence. }
  unfold bind, query, ret, raise, parse_date, datetime_now, insert_record.
  destruct (find_account w from_account) as [[[fi fn]|]|e1];
    cbv beta iota; try discriminate.
  destruct (find_account w to_account) as [[[ti tn]|]|e2];
    cbv beta iota; try discriminate.
  destruct (fi =? ti) eqn:Hne; [discriminate|]. apply Z.eqb_neq in Hne.
  destruct (truthy date_str) as [s|]; [destruct (strptime s)|];
    cbv beta iota; try discriminate;
    intros H; inversion H; subst; clear H;
    exists fi, fn, ti, tn; do 2 eexists;
    cbn [accounts categories records config_file set_records clock tick];
    repeat split; eauto.
Qed.







(** ** The total of [bq balance] *)

Section Totals.






Lemma NoDup_map_filter {A B} (f : A -> B) (P : A -> bool) (l : list A) :
  NoDup (map f l) -> NoDup (map f (filter P l)).
Proof.
  induction l as [|x l IH]; simpl; intros H; [constructor|].
  inversion H as [|? ? Hnot Hnd]; subst.
  destruct (P x); simpl; [|now apply IH].
  constructor; [|now apply IH].
  intros Hin. apply Hnot. apply in_map_iff in Hin.
  destruct Hin as (y & Hy & Hin). apply filter_In in Hin.
  apply in_map_iff. exists y. tauto.
Qed.



End Totals.



Example balance_household :
  fst (balance household)
  = [ ("Checking", calculate_account_balance household 1 100, 100%Q);
      ("Savings", calculate_account_balance household 2 0, 0%Q);
      ("Outside source", calculate_account_balance household 3 0, 0%Q) ]
  /\ (snd (balance household) == 1550)%Q.
Proof. split; reflexivity. Qed.

(** ** [undo] after [add] or [transfer] *)

Lemma fold_max_ge (l : list Z) (i x : Z) :
  x = i \/ In x l -> x <= fold_left Z.max l i.
Proof.
  revert i x. induction l as [|y l IH]; intros i x; simpl.
  - intros [->|[]]. lia.
  - intros [H|[H|H]].
    + transitivity (Z.max i y); [lia|]. apply IH. now left.
    + transitivity (Z.max i y); [lia|]. apply IH. now left.
    + apply IH. now right.
Qed.

(** The id of a new row is none of the ids in use. *)
Lemma next_rowid_fresh (ids : list Z) : ~ In (next_rowid ids) ids.
Proof.
  destruct ids as [|i rest]; simpl; [tauto|].
  intros H.
  assert (Hle : fold_left Z.max rest i + 1 <= fold_left Z.max rest i).
  { apply fold_max_ge. destruct H as [H|H]; [left; now symmetry|now right]. }
  lia.
Qed.

(** [undo -y] on a ledger whose last row was created after all others and
    has an id of its own removes that row. *)
Lemma undo_last_row (w : world) (l : list record) (r : record) (answer : bool) :
  records w = (l ++ [r])%list ->
  (forall x, In x l -> r_createdAt x < r_createdAt r) ->
  ~ In (r_id r) (map r_id l) ->
  undo true answer w = (Ok tt, set_records l w).
Proof.
  intros Hr Hlast Hfresh. unfold undo, bind, get_config, get.
  assert (Hhead : fetchone (order_by by_createdAt_desc (records w)) = Some r).
  { destruct (fetchone (order_by by_createdAt_desc (records w))) as [x|] eqn:Hx.
    - destruct (order_by_first by_createdAt_desc by_createdAt_desc_total
                  by_createdAt_desc_trans _ _ Hx) as [Hin Hmax].
      rewrite Hr in Hin, Hmax. apply in_app_or in Hin.
      destruct Hin as [Hin|[<-|[]]]; [|reflexivity].
      assert (Hrin : In r (l ++ [r])%list)
        by (apply in_or_app; right; now left).
      specialize (Hmax r Hrin).
      unfold by_createdAt_desc in Hmax. apply Z.leb_le in Hmax.
      specialize (Hlast x Hin). lia.
    - exfalso.
      assert (Hnil : records w = []).
      { apply (order_by_nil by_createdAt_desc).
        destruct (order_by by_createdAt_desc (records w));
          [reflexivity|discriminate]. }
      rewrite Hr in Hnil. destruct l; discriminate. }
  rewrite Hhead. cbn [negb andb]. unfold delete_record. f_equal. f_equal.
  rewrite Hr, filter_app. simpl. rewrite Z.eqb_refl. simpl.
  rewrite app_nil_r.
  clear Hr Hhead Hlast. induction l as [|x l IH]; simpl; [reflexivity|].
  simpl in Hfresh.
  destruct (Z.eqb_spec (r_id x) (r_id r)) as [E|_]; [tauto|].
  simpl. f_equal. apply IH. tauto.
Qed.

(** X14: [undo -y] right after a successful [add] or [transfer] takes the
    new record away again and nothing else, so that the ledger, and with
    it every balance, is as before.  This needs the clock to read later
    than every creation timestamp in the ledger: [undo] goes by creation
    time. *)
Theorem undo_takes_back_entry (w w1 : world) (answer : bool) :
  (forall r, In r (records w) ->
             r_createdAt r < clock w (tick w)
             /\ r_createdAt r < clock w (S (tick w))) ->
  (forall amount label category account income date_str,
      add amount label category account income date_str w = (Ok tt, w1) ->
      exists w2,
        undo true answer w1 = (Ok tt, w2)
        /\ records w2 = records w
        /\ accounts w2 = accounts w
        /\ categories w2 = categories w)
  /\ (forall amount label from_account to_account date_str,
        transfer amount label from_account to_account date_str w
        = (Ok tt, w1) ->
        exists w2,
          undo true answer w1 = (Ok tt, w2)
          /\ records w2 = records w
          /\ accounts w2 = accounts w
          /\ categories w2 = categories w).
Proof.
  intros Hclock. split.
  - intros amount label category account income date_str H.
    apply add_done in H.
    destruct H as (aid & cid & date & now & _ & _ & _ & Hnow & Hacc & Hcat
                   & _ & Hr).
    eexists. split; [apply (undo_last_row w1 _ _ answer Hr)|].
    + intros x Hx. simpl. destruct (Hclock x Hx).
      destruct Hnow; subst; assumption.
    + simpl. apply next_rowid_fresh.
    + simpl. tauto.
  - intros amount label from_account to_account date_str H.
    apply transfer_done in H.
    destruct H as (fi & fn & ti & tn & date & now & _ & _ & _ & _ & Hnow
                   & Hacc & Hcat & _ & Hr).
    eexists. split; [apply (undo_last_row w1 _ _ answer Hr)|].
    + intros x Hx. simpl. destruct (Hclock x Hx).
      destruct Hnow; subst; assumption.
    + simpl. apply next_rowid_fresh.
    + simpl. tauto.
Qed.

Lemma undo_takes_back_entry_witness :
  let added := add 50 "Groceries" (Some "food") None false None household in
  let moved := transfer 200 "Buffer" "check" "sav" (Some "2025-01-03")
                        household in
  (forall r, In r (records household) ->
             r_createdAt r < clock household (tick household)
             /\ r_createdAt r < clock household (S (tick household)))
  /\ (added = (Ok tt, snd added)
      /\ exists w2,
           undo true false (snd added) = (Ok tt, w2)
           /\ records w2 = records household
           /\ accounts w2 = accounts household
           /\ categories w2 = categories household)
  /\ (moved = (Ok tt, snd moved)
      /\ exists w2,
           undo true false (snd moved) = (Ok tt, w2)
           /\ records w2 = records household
           /\ accounts w2 = accounts household
           /\ categories w2 = categories household).
Proof.
  intros added moved.
  assert (Hclock : forall r, In r (records household) ->
                     r_createdAt r < clock household (tick household)
                     /\ r_createdAt r < clock household (S (tick household))).
  { intros r [<-|[<-|[<-|[]]]]; split; reflexivity. }
  split; [exact Hclock|]. split.
  - split; [reflexivity|].
    apply (proj1 (undo_takes_back_entry household (snd added) false Hclock)
             50%Q "Groceries" (Some "food") None false None).
    reflexivity.
  - split; [reflexivity|].
    apply (proj2 (undo_takes_back_entry household (snd moved) false Hclock)
             200%Q "Buffer" "check" "sav" (Some "2025-01-03")).
    reflexivity.
Defined.

(** Without that, [undo] takes another record: here the clock reads 2500,
    earlier than the creation of the transfer already in the ledger. *)
Example undo_takes_older_entry :
  let slow := mkWorld (accounts household) (categories household)
                      (records household) Missing (fun _ => 2500) 0 in
  map r_label
      (records (snd (undo true false
                       (snd (add 50 "Snack" None None false None slow)))))
  = ["Groceries"; "Monthly salary"; "Snack"].
Proof. reflexivity. Qed.

(** ** What the ledger commands keep *)

Lemma edit_done (w w' : world) (num : Z) (amount : option Q)
  (new_label : option string) (category account : option string)
  (date_str : option string) (is_income : option bool) :
  edit num amount new_label category account date_str is_income w
  = (Ok tt, w') ->
  accounts w' = accounts w
  /\ categories w' = categories w
  /\ config_file w' = config_file w
  /\ Forall2
       (fun r r' =>
          r_id r' = r_id r
          /\ r_createdAt r' = r_createdAt r
          /\ r_isTransfer r' = r_isTransfer r
          /\ r_transferToAccountId r' = r_transferToAccountId r
          /\ (r_amount r' = r_amount r \/ (0 < r_amount r')%Q))
       (records w) (records w').
Proof.
  unfold edit.
  destruct (is_null amount && is_null new_label && is_null category
            && is_null account && is_null date_str && is_null is_income);
    [discriminate|].
  unfold bind, get.
  destruct (nth_error (order_by by_createdAt_desc (records w))
                      (Z.to_nat (num - 1))) as [target|].
  2:{ intros H. inversion H; subst. repeat split.
      rewrite <- (map_id (records w')) at 2.
      apply Forall2_map_self. intros x. repeat split. now left. }
  unfold field, query, ret, raise, datetime_now, update_record.
  destruct amount as [a|];
    [destruct (Qle_bool a 0) eqn:Ha; [discriminate|];
     assert (Hpos : (0 < a)%Q)
       by (apply Qnot_le_lt; intros Hle; apply Qle_bool_iff in Hle;
           congruence)|];
  destruct new_label as [l|];
  (destruct category as [c|];
   [destruct (find_category w c) as [[[cid cn]|]|e]; try discriminate|]);
  (destruct account as [ac|];
   [destruct (find_account w ac) as [[[aid an]|]|e]; try discriminate|]);
  (destruct date_str as [s|]; [destruct (strptime s); try discriminate|]);
  destruct is_income as [b|];
  intros H; inversion H; subst; clear H;
  (split; [reflexivity|]; split; [reflexivity|]; split; [reflexivity|];
   apply Forall2_map_self; intros x;
   destruct (r_id x =? r_id target); simpl; repeat split; auto).
Qed.

Lemma ledger_ok_edited (l l' : list record) :
  Forall2
    (fun r r' =>
       r_id r' = r_id r
       /\ r_createdAt r' = r_createdAt r
       /\ r_isTransfer r' = r_isTransfer r
       /\ r_transferToAccountId r' = r_transferToAccountId r
       /\ (r_amount r' = r_amount r \/ (0 < r_amount r')%Q)) l l' ->
  ledger_ok l -> ledger_ok l'.
Proof.
  unfold ledger_ok, destinations_on_transfers.
  intros H. induction H as [|r r' l l' Hr Hl IH].
  - tauto.
  - intros (Hpos & Hdest & Hkey).
    inversion Hpos; inversion Hdest; inversion Hkey; subst.
    destruct Hr as (Hid & _ & Htr & Hto & Ham).
    destruct IH as (IH1 & IH2 & IH3); [tauto|].
    assert (Hids : map r_id l' = map r_id l).
    { clear - Hl. induction Hl as [|x x' l l' Hx _ IH]; simpl; [reflexivity|].
      destruct Hx as [-> _]. now rewrite IH. }
    repeat split; simpl.
    + constructor; [|exact IH1]. destruct Ham as [->|]; assumption.
    + constructor; [|exact IH2]. rewrite Htr, Hto. assumption.
    + constructor; [|exact IH3]. rewrite Hid, Hids. assumption.
Qed.

Lemma ledger_ok_filter (P : record -> bool) (l : list record) :
  ledger_ok l -> ledger_ok (filter P l).
Proof.
  unfold ledger_ok, destinations_on_transfers.
  intros (Hpos & Hdest & Hkey). repeat split.
  - apply Forall_forall. intros r Hr. apply filter_In in Hr.
    rewrite Forall_forall in Hpos. now apply Hpos.
  - apply Forall_forall. intros r Hr. apply filter_In in Hr.
    rewrite Forall_forall in Hdest. now apply Hdest.
  - now apply NoDup_map_filter.
Qed.

Lemma ledger_ok_insert (w : world) (r : record) :
  (0 < r_amount r)%Q ->
  (r_transferToAccountId r <> None -> r_isTransfer r = true) ->
  r_id r = new_id w ->
  ledger_ok (records w) -> ledger_ok (records w ++ [r])%list.
Proof.
  unfold ledger_ok, destinations_on_transfers.
  intros Hpos Hdest Hid (H1 & H2 & H3). repeat split.
  - apply Forall_app. split; [exact H1|]. now constructor.
  - apply Forall_app. split; [exact H2|]. now constructor.
  - rewrite map_app. simpl.
    apply (Permutation_NoDup (Permutation_cons_append _ _)).
    constructor; [|exact H3]. rewrite Hid. apply next_rowid_fresh.
Qed.

(** X15: a ledger in which every amount is above zero, only transfers
    name a destination account and record ids are a key stays such a
    ledger under [add], [transfer], [edit] and [undo], however they end. *)
Theorem entries_keep_ledger_ok (w : world) :
  ledger_ok (records w) ->
  (forall amount label category account income date_str,
      ledger_ok
        (records (snd (add amount label category account income date_str w))))
  /\ (forall amount label from_account to_account date_str,
        ledger_ok
          (records (snd (transfer amount label from_account to_account
                                  date_str w))))
  /\ (forall num amount new_label category account date_str is_income,
        ledger_ok
          (records (snd (edit num amount new_label category account date_str
                              is_income w))))
  /\ (forall yes answer, ledger_ok (records (snd (undo yes answer w)))).
Proof.
  intros Hok. split; [|split; [|split]].
  - intros amount label category account income date_str.
    destruct (add amount label category account income date_str w)
      as [[[]|e] w'] eqn:H; cbn [snd].
    + apply add_done in H.
      destruct H as (aid & cid & date & now & Hpos & _ & _ & _ & _ & _ & _
                     & Hr).
      rewrite Hr. apply ledger_ok_insert; simpl; auto.
    + apply add_failed in H. now subst.
  - intros amount label from_account to_account date_str.
    destruct (transfer amount label from_account to_account date_str w)
      as [[[]|e] w'] eqn:H; cbn [snd].
    + apply transfer_done in H.
      destruct H as (fi & fn & ti & tn & date & now & Hpos & _ & _ & _ & _
                     & _ & _ & _ & Hr).
      rewrite Hr. apply ledger_ok_insert; simpl; auto.
    + apply transfer_failed in H. now subst.
  - intros num amount new_label category account date_str is_income.
    destruct (edit num amount new_label category account date_str is_income w)
      as [[[]|e] w'] eqn:H; cbn [snd].
    + apply edit_done in H. destruct H as (_ & _ & _ & H).
      now apply (ledger_ok_edited _ _ H).
    + apply edit_failed in H. now subst.
  - intros yes answer. unfold undo, bind, get_config, get.
    destruct (fetchone (order_by by_createdAt_desc (records w))) as [r|];
      [|exact Hok].
    destruct (negb yes && _ && negb answer); [exact Hok|].
    simpl. now apply ledger_ok_filter.
Qed.

Lemma entries_keep_ledger_ok_witness :
  ledger_ok (records household)
  /\ ledger_ok
       (records (snd (add 50 "Groceries" (Some "food") None false None
                          household)))
  /\ ledger_ok
       (records (snd (transfer 200 "Buffer" "check" "sav" None household)))
  /\ ledger_ok
       (records (snd (edit 2 (Some 1600%Q) None None (Some "sav") None None
                           household)))
  /\ ledger_ok (records (snd (undo true false household))).
Proof.
  assert (Hok : ledger_ok (records household)).
  { split; [|split].
    - repeat constructor.
    - repeat constructor; simpl; intros H; try reflexivity; now elim H.
    - repeat constructor; simpl; intuition discriminate. }
  split; [exact Hok|].
  destruct (entries_keep_ledger_ok household Hok) as (Ha & Ht & He & Hu).
  split; [apply Ha|]. split; [apply Ht|]. split; [apply He|apply Hu].
Defined.

(** What [edit] does not keep: that a transfer has no category and goes to
    another account than it leaves. *)
Example edit_breaks_transfer :
  map (fun r => (r_isTransfer r, r_accountId r, r_transferToAccountId r,
                 r_categoryId r))
      (records (snd (edit 1 None None (Some "food") (Some "sav") None None
                          household)))
  = [ (false, 1, None, Some 1);
      (false, 1, None, Some 3);
      (true, 2, Some 2, Some 1) ].
Proof. reflexivity. Qed.

(** ** What [balance set] and [balance adjust] touch *)

Lemma filter_map_same {A} (P : A -> bool) (g : A -> A) (l : list A) :
  (forall x, P (g x) = P x) -> filter P (map g l) = map g (filter P l).
Proof.
  intros H. induction l as [|x l IH]; simpl; [reflexivity|].
  rewrite H. destruct (P x); simpl; now rewrite IH.
Qed.

(** The resolver reads ids, names and deletion marks only. *)
Lemma find_account_updated (w w' : world) (g : account -> account)
  (search : string) :
  accounts w' = map g (accounts w) ->
  (forall a, a_id (g a) = a_id a /\ a_name (g a) = a_name a
             /\ a_deletedAt (g a) = a_deletedAt a) ->
  find_account w' search = find_account w search.
Proof.
  intros Hacc Hg. unfold find_account. rewrite Hacc.
  rewrite !filter_map_same
    by (intros x; destruct (Hg x) as (_ & -> & ->); reflexivity).
  rewrite fetchone_map.
  destruct (fetchone (filter _ (accounts w))) as [a|]; simpl.
  - destruct (Hg a) as (-> & -> & _). reflexivity.
  - destruct (filter _ (accounts w)) as [|a [|b l]]; simpl; try reflexivity.
    + destruct (Hg a) as (-> & -> & _). reflexivity.
    + destruct (Hg a) as (_ & -> & _). destruct (Hg b) as (_ & -> & _).
      do 4 f_equal. rewrite map_map. apply map_ext.
      intros x. now destruct (Hg x) as (_ & -> & _).
Qed.

Lemma with_beginning_keeps (acc_id : Z) (new : Q) (now : datetime)
  (a : account) :
  a_id (with_beginning acc_id new now a) = a_id a
  /\ a_name (with_beginning acc_id new now a) = a_name a
  /\ a_deletedAt (with_beginning acc_id new now a) = a_deletedAt a.
Proof. unfold with_beginning. destruct (a_id a =? acc_id); auto. Qed.

Lemma balance_set_done (w : world) (account : string) (X : Q)
  (id : Z) (name : string) (b : Q) :
  find_account w account = Ok (Some (id, name)) ->
  select_beginning w id = Some b ->
  balance_set account X w
  = (Ok tt,
     set_accounts
       (map (with_beginning id
               (b + (X - calculate_account_balance w id b))%Q
               (clock w (tick w))) (accounts w))
       (ticked w)).
Proof.
  intros Hf Hb. unfold balance_set, bind, query, get. rewrite Hf, Hb.
  reflexivity.
Qed.

Lemma balance_adjust_done (w : world) (account : string) (D : Q)
  (id : Z) (name : string) (b : Q) :
  find_account w account = Ok (Some (id, name)) ->
  select_beginning w id = Some b ->
  balance_adjust account D w
  = (Ok (calculate_account_balance w id (b + D)),
     set_accounts
       (map (with_beginning id (b + D)%Q (clock w (tick w))) (accounts w))
       (ticked w)).
Proof.
  intros Hf Hb. unfold balance_adjust, bind, query, get. rewrite Hf, Hb.
  reflexivity.
Qed.

Lemma resolved_has_beginning (w : world) (account : string)
  (id : Z) (name : string) :
  find_account w account = Ok (Some (id, name)) ->
  exists b, select_beginning w id = Some b.
Proof.
  intros Hf.
  destruct (find_account_sound _ _ _ _ Hf) as (a & Ha & Hid & _ & _).
  destruct (select_beginning_exists w a Ha) as [b Hb]. rewrite Hid in Hb.
  eauto.
Qed.

(** X16: a [balance set] or [balance adjust] that succeeds changes the
    beginning balance and the update timestamp of the rows with the
    resolved id and nothing else: no record, no category, no setting, no
    other account, and no name, id, description or deletion mark, so that
    every name resolves afterwards as it did before. *)
Theorem balance_commands_touch_one_account
  (w w' : world) (account : string) (amount : Q) :
  balance_set account amount w = (Ok tt, w')
  \/ (exists shown, balance_adjust account amount w = (Ok shown, w')) ->
  exists id name,
    find_account w account = Ok (Some (id, name))
    /\ records w' = records w
    /\ categories w' = categories w
    /\ config_file w' = config_file w
    /\ Forall2
         (fun a a' =>
            a_id a' = a_id a
            /\ a_name a' = a_name a
            /\ a_description a' = a_description a
            /\ a_deletedAt a' = a_deletedAt a
            /\ (a_id a <> id -> a' = a))
         (accounts w) (accounts w')
    /\ forall search, find_account w' search = find_account w search.
Proof.
  intros H.
  assert (Hres : exists id name new,
             find_account w account = Ok (Some (id, name))
             /\ w' = set_accounts
                       (map (with_beginning id new (clock w (tick w)))
                            (accounts w)) (ticked w)).
  { destruct (find_account w account) as [[[id name]|]|e] eqn:Hf.
    - destruct (resolved_has_beginning _ _ _ _ Hf) as [b Hb].
      destruct H as [H|[shown H]].
      + rewrite (balance_set_done _ _ _ _ _ _ Hf Hb) in H.
        inversion H. eauto 6.
      + rewrite (balance_adjust_done _ _ _ _ _ _ Hf Hb) in H.
        inversion H. eauto 6.
    - destruct H as [H|[shown H]];
        unfold balance_set, balance_adjust, bind, query in H;
        rewrite Hf in H; discriminate.
    - destruct H as [H|[shown H]];
        unfold balance_set, balance_adjust, bind, query in H;
        rewrite Hf in H; discriminate. }
  destruct Hres as (id & name & new & Hf & ->).
  exists id, name. split; [exact Hf|].
  split; [reflexivity|]. split; [reflexivity|]. split; [reflexivity|]. split.
  - cbn [accounts set_accounts]. apply Forall2_map_self.
    intros a. unfold with_beginning.
    destruct (Z.eqb_spec (a_id a) id); simpl; repeat split; tauto.
  - intros search.
    apply (find_account_updated _ _
             (with_beginning id new (clock w (tick w)))); [reflexivity|].
    apply with_beginning_keeps.
Qed.

Lemma balance_commands_touch_one_account_witness :
  let after := balance_set "check" 42 household in
  (after = (Ok tt, snd after)
   \/ (exists shown, balance_adjust "check" 42 household = (Ok shown, snd after)))
  /\ exists id name,
       find_account household "check" = Ok (Some (id, name))
       /\ records (snd after) = records household
       /\ categories (snd after) = categories household
       /\ config_file (snd after) = config_file household
       /\ Forall2
            (fun a a' =>
               a_id a' = a_id a
               /\ a_name a' = a_name a
               /\ a_description a' = a_description a
               /\ a_deletedAt a' = a_deletedAt a
               /\ (a_id a <> id -> a' = a))
            (accounts household) (accounts (snd after))
       /\ forall search,
            find_account (snd after) search = find_account household search.
Proof.
  intros after.
  assert (H : after = (Ok tt, snd after)) by reflexivity.
  split; [now left|].
  apply (balance_commands_touch_one_account household (snd after) "check" 42).
  left. exact H.
Defined.



(** ** [edit] and the order of creation *)

Section Related.

Variable R : record -> record -> Prop.
Hypothesis R_createdAt : forall r r', R r r' -> r_createdAt r' = r_createdAt r.

Lemma insert_by_related (x x' : record) (l l' : list record) :
  R x x' -> Forall2 R l l' ->
  Forall2 R (insert_by by_createdAt_desc x l)
            (insert_by by_createdAt_desc x' l').
Proof.
  intros Hx H. induction H as [|y y' l l' Hy Hl IH]; simpl.
  - repeat constructor. exact Hx.
  - unfold by_createdAt_desc at 1 3.
    rewrite (R_createdAt _ _ Hx), (R_createdAt _ _ Hy).
    destruct (r_createdAt y <=? r_createdAt x).
    + repeat (constructor; try assumption).
    + constructor; assumption.
Qed.

Lemma order_by_related (l l' : list record) :
  Forall2 R l l' ->
  Forall2 R (order_by by_createdAt_desc l) (order_by by_createdAt_desc l').
Proof.
  intros H. induction H as [|y y' l l' Hy Hl IH]; simpl.
  - constructor.
  - now apply insert_by_related.
Qed.

End Related.

Lemma related_ids (R : record -> record -> Prop) (l l' : list record) :
  (forall r r', R r r' -> r_id r' = r_id r) ->
  Forall2 R l l' ->
  forall P : Z -> bool,
    map r_id (filter (fun r => P (r_id r)) l')
    = map r_id (filter (fun r => P (r_id r)) l).
Proof.
  intros HR H P. induction H as [|y y' l l' Hy Hl IH]; simpl; [reflexivity|].
  rewrite (HR _ _ Hy). destruct (P (r_id y)); simpl; rewrite IH; [|reflexivity].
  now rewrite (HR _ _ Hy).
Qed.

(** X18: a successful [edit] does not change which record [undo] removes:
    [edit] keeps ids and creation timestamps, by which alone [undo]
    chooses, so that after it [undo] ends the same way and leaves the
    records with the same ids as it would have without the [edit]. *)
Theorem edit_does_not_redirect_undo
  (w w1 : world) (num : Z) (amount : option Q) (new_label : option string)
  (category account : option string) (date_str : option string)
  (is_income : option bool) (yes answer : bool) :
  edit num amount new_label category account date_str is_income w
  = (Ok tt, w1) ->
  fst (undo yes answer w1) = fst (undo yes answer w)
  /\ map r_id (records (snd (undo yes answer w1)))
     = map r_id (records (snd (undo yes answer w)))
  /\ map r_id (records w1) = map r_id (records w).
Proof.
  intros H. apply edit_done in H. destruct H as (_ & _ & Hcfg & H).
  set (R := fun r r' : record =>
              r_id r' = r_id r
              /\ r_createdAt r' = r_createdAt r
              /\ r_isTransfer r' = r_isTransfer r
              /\ r_transferToAccountId r' = r_transferToAccountId r
              /\ (r_amount r' = r_amount r \/ (0 < r_amount r')%Q)) in H.
  assert (Hid : forall r r', R r r' -> r_id r' = r_id r)
    by (intros r r' Hr; apply Hr).
  assert (Hall : map r_id (records w1) = map r_id (records w)).
  { pose proof (related_ids R _ _ Hid H (fun _ => true)) as Hm.
    simpl in Hm.
    assert (Hf : forall l : list record, filter (fun _ => true) l = l)
      by (induction l; simpl; congruence).
    now rewrite !Hf in Hm. }
  assert (Hsorted : Forall2 R (order_by by_createdAt_desc (records w))
                              (order_by by_createdAt_desc (records w1))).
  { apply order_by_related; [|exact H]. intros r r' Hr. apply Hr. }
  unfold undo, bind, get_config, get. rewrite Hcfg.
  destruct Hsorted as [|r r' s s' Hr _]; simpl.
  - repeat split; exact Hall.
  - destruct (negb yes && _ && negb answer); simpl.
    + repeat split; exact Hall.
    + repeat split; [|exact Hall]. rewrite (Hid _ _ Hr).
      apply (related_ids R _ _ Hid H (fun k => negb (k =? r_id r))).
Qed.

Lemma edit_does_not_redirect_undo_witness :
  let edited := edit 2 (Some 1600%Q) None None None (Some "2030-01-01") None
                     household in
  edited = (Ok tt, snd edited)
  /\ fst (undo true false (snd edited)) = fst (undo true false household)
  /\ map r_id (records (snd (undo true false (snd edited))))
     = map r_id (records (snd (undo true false household)))
  /\ map r_id (records (snd edited)) = map r_id (records household).
Proof.
  intros edited. split; [reflexivity|].
  apply (edit_does_not_redirect_undo household (snd edited) 2 (Some 1600%Q)
           None None None (Some "2030-01-01") None true false).
  reflexivity.
Defined.



(** ** Errors of the defaults *)



(** ** [cats] *)

Section Cats.

Let top (r : category_row) : bool := is_null (cr_parentCategoryId r).

Lemma zget_zset {A} (d : zdict A) (q k : Z) (v : A) :
  zget (zset d q v) k = if q =? k then Some v else zget d k.
Proof.
  induction d as [|[k0 v0] d IH]; simpl.
  - reflexivity.
  - destruct (Z.eqb_spec k0 q) as [->|Hq]; simpl.
    + destruct (q =? k); reflexivity.
    + rewrite IH. destruct (Z.eqb_spec k0 k) as [->|Hk]; [|reflexivity].
      destruct (Z.eqb_spec q k); [congruence|reflexivity].
Qed.

Lemma zset_absent {A} (d : zdict A) (k : Z) (v : A) :
  zget d k = None -> zset d k v = (d ++ [(k, v)])%list.
Proof.
  induction d as [|[k0 v0] d IH]; simpl; [reflexivity|].
  destruct (k0 =? k); [discriminate|]. intros H. now rewrite IH.
Qed.

Lemma zget_app_absent {A} (d : zdict A) (q k : Z) (v : A) :
  zget d k = None -> q <> k -> zget (d ++ [(q, v)])%list k = None.
Proof.
  induction d as [|[k0 v0] d IH]; simpl; intros H Hq.
  - destruct (Z.eqb_spec q k); [contradiction|reflexivity].
  - destruct (k0 =? k); [discriminate|]. now apply IH.
Qed.

Lemma insert_by_Forall {A} (leb : A -> A -> bool) (Q : A -> Prop) (x : A)
  (l : list A) :
  Q x -> Forall Q l -> Forall Q (insert_by leb x l).
Proof.
  intros Hx H. induction H as [|y l Hy Hl IH]; simpl.
  - now repeat constructor.
  - destruct (leb x y); repeat (constructor; try assumption).
Qed.

(** The query lists the top-level categories before all others. *)
Lemma insert_tops_first (x : category_row) (P C : list category_row) :
  Forall (fun r => top r = true) P -> Forall (fun r => top r = false) C ->
  exists P' C',
    insert_by by_parent_then_name x (P ++ C) = (P' ++ C')%list
    /\ Forall (fun r => top r = true) P'
    /\ Forall (fun r => top r = false) C'.
Proof.
  intros HP HC. induction HP as [|p P Hp HP IH]; simpl.
  - destruct (top x) eqn:Hx.
    + exists [x], C. repeat split; [|now repeat constructor|exact HC].
      destruct HC as [|y C Hy HC]; simpl; [reflexivity|].
      unfold by_parent_then_name. unfold top in Hx, Hy.
      destruct (cr_parentCategoryId x); [discriminate|].
      destruct (cr_parentCategoryId y); [reflexivity|discriminate].
    + exists [], (insert_by by_parent_then_name x C).
      repeat split; [constructor|]. now apply insert_by_Forall.
  - destruct (by_parent_then_name x p) eqn:Hleb.
    + exists (x :: p :: P), C. repeat split; [|exact HC].
      constructor; [|now constructor].
      unfold by_parent_then_name in Hleb. unfold top in *.
      destruct (cr_parentCategoryId x); [|reflexivity].
      destruct (cr_parentCategoryId p); discriminate.
    + destruct IH as (P' & C' & Heq & HP' & HC').
      exists (p :: P'), C'. rewrite Heq.
      repeat split; [now constructor|exact HC'].
Qed.

Lemma select_tops_first (l : list category_row) :
  exists P C,
    order_by by_parent_then_name l = (P ++ C)%list
    /\ Forall (fun r => top r = true) P
    /\ Forall (fun r => top r = false) C.
Proof.
  induction l as [|x l IH]; simpl.
  - exists [], []. repeat split; constructor.
  - destruct IH as (P & C & -> & HP & HC). now apply insert_tops_first.
Qed.

(** The loop over the top-level categories. *)
Lemma loop_tops (P : list category_row) :
  Forall (fun r => top r = true) P ->
  NoDup (map cr_id P) ->
  forall ps cs,
    (forall p, In p P -> zget ps (cr_id p) = None /\ zget cs (cr_id p) = None) ->
    fold_left cats_step P (ps, cs)
    = ((ps ++ map (fun p => (cr_id p, (cr_name p, cr_nature p))) P)%list,
       (cs ++ map (fun p => (cr_id p, @nil (string * string))) P)%list).
Proof.
  intros HP. induction HP as [|p P Hp HP IH]; intros Hnd ps cs Habs.
  - simpl. now rewrite !app_nil_r.
  - cbn [fold_left map]. inversion Hnd as [|? ? Hnot Hnd']; subst.
    unfold top in Hp. unfold cats_step at 2.
    destruct (cr_parentCategoryId p); [discriminate|].
    destruct (Habs p (or_introl eq_refl)) as [Hps Hcs].
    rewrite (zset_absent _ _ _ Hps), (zset_absent _ _ _ Hcs).
    rewrite IH; [now rewrite <- !app_assoc|exact Hnd'|].
    intros q Hq. destruct (Habs q (or_intror Hq)) as [Hqp Hqc].
    assert (Hne : cr_id p <> cr_id q).
    { intros E. apply Hnot. rewrite E. now apply in_map. }
    split; now apply zget_app_absent.
Qed.

(** The loop over the others. *)
Lemma loop_kids (C : list category_row) :
  Forall (fun r => top r = false) C ->
  forall ps cs,
    fst (fold_left cats_step C (ps, cs)) = ps
    /\ forall k,
         zget_or_nil (snd (fold_left cats_step C (ps, cs))) k
         = (zget_or_nil cs k ++ kids k C)%list.
Proof.
  intros HC. induction HC as [|c C Hc HC IH]; intros ps cs.
  - simpl. split; [reflexivity|]. intros k. unfold kids. simpl.
    now rewrite app_nil_r.
  - cbn [fold_left]. unfold top in Hc. unfold cats_step at 2 4.
    destruct (cr_parentCategoryId c) as [q|] eqn:Hq; [|discriminate].
    set (cs1 := match zget cs q with
                | Some _ => cs
                | None => zset cs q []
                end).
    assert (Hcs1 : zget_or_nil cs1 q = zget_or_nil cs q).
    { unfold cs1, zget_or_nil. destruct (zget cs q) eqn:E; [now rewrite E|].
      now rewrite zget_zset, Z.eqb_refl. }
    assert (Hother : forall k, q <> k -> zget_or_nil cs1 k = zget_or_nil cs k).
    { intros k Hk. unfold cs1, zget_or_nil.
      destruct (zget cs q); [reflexivity|]. rewrite zget_zset.
      destruct (Z.eqb_spec q k); [contradiction|reflexivity]. }
    destruct (IH ps (zset cs1 q (zget_or_nil cs1 q
                                 ++ [(cr_name c, cr_nature c)])%list))
      as [Hfst Hsnd].
    split; [exact Hfst|]. intros k. rewrite Hsnd.
    unfold kids. simpl. rewrite Hq. simpl.
    unfold zget_or_nil at 1. rewrite zget_zset.
    destruct (Z.eqb_spec q k) as [->|Hk].
    + rewrite Hcs1. simpl. now rewrite <- app_assoc.
    + fold (zget_or_nil cs1 k). now rewrite (Hother k Hk).
Qed.

Lemma filter_all {A} (f : A -> bool) (l : list A) :
  Forall (fun x => f x = true) l -> filter f l = l.
Proof.
  intros H. induction H as [|x l Hx _ IH]; simpl; [reflexivity|].
  now rewrite Hx, IH.
Qed.

Lemma filter_no {A} (f : A -> bool) (l : list A) :
  Forall (fun x => f x = false) l -> filter f l = [].
Proof.
  intros H. induction H as [|x l Hx _ IH]; simpl; [reflexivity|].
  now rewrite Hx.
Qed.

(** What the tree of [cats] holds, for a listing with the top-level
    categories first. *)
Lemma cats_tree_of (P C : list category_row) :
  Forall (fun r => top r = true) P ->
  Forall (fun r => top r = false) C ->
  NoDup (map cr_id P) ->
  (let (parents, children) := fold_left cats_step (P ++ C) ([], []) in
   map (fun entry : Z * (string * string) =>
          let '(parent_id, (parent_name, parent_nature)) := entry in
          (parent_name, parent_nature, zget_or_nil children parent_id))
       parents)
  = map (fun p => (cr_name p, cr_nature p, kids (cr_id p) (P ++ C)))
        (filter top (P ++ C)).
Proof.
  intros HP HC Hnd.
  rewrite fold_left_app.
  set (st := fold_left cats_step P _).
  assert (Hst : st = (map (fun p => (cr_id p, (cr_name p, cr_nature p))) P,
                      map (fun p => (cr_id p, @nil (string * string))) P))
    by (apply (loop_tops P HP Hnd [] []); intros; now split).
  rewrite Hst. clear st Hst.
  destruct (loop_kids C HC
              (map (fun p => (cr_id p, (cr_name p, cr_nature p))) P)
              (map (fun p => (cr_id p, @nil (string * string))) P))
    as [Hfst Hsnd].
  destruct (fold_left cats_step C _) as [parents children].
  simpl in Hfst, Hsnd. subst parents.
  rewrite filter_app, (filter_all top P HP), (filter_no top C HC), app_nil_r.
  rewrite map_map. apply map_ext. intros p. rewrite Hsnd.
  f_equal.
  assert (Hnil : forall k,
             zget_or_nil (map (fun p => (cr_id p, @nil (string * string))) P) k
             = []).
  { intros k. unfold zget_or_nil. clear. induction P as [|x P IH]; simpl.
    - reflexivity.
    - destruct (cr_id x =? k); [reflexivity|exact IH]. }
  rewrite Hnil. simpl. unfold kids. rewrite filter_app.
  rewrite (filter_no _ P); [reflexivity|].
  eapply Forall_impl; [|exact HP]. intros r Hr. unfold top in Hr. cbv beta.
  destruct (cr_parentCategoryId r); [discriminate|reflexivity].
Qed.

End Cats.

(** X21: with category ids a key of the table, the tree of [cats] has one
    heading for every top-level category that is not soft-deleted, in the
    order of the listing, and under each the categories of the listing
    whose parent it is.  A category whose parent is soft-deleted, absent or
    itself a child therefore appears nowhere in the tree, although
    [cats --flat] lists it. *)
Theorem cats_tree_shows_children_of_listed_parents (table : list category_row) :
  NoDup (map cr_id table) ->
  cats false table
  = Tree (map (fun p => (cr_name p, cr_nature p,
                         kids (cr_id p) (select_categories table)))
              (filter (fun r => is_null (cr_parentCategoryId r))
                      (select_categories table)))
  /\ cats true table
     = FlatTable
         (map (fun r =>
                 ((if parent_truthy (cr_parentCategoryId r) then "    " else "")
                  ++ cr_name r, cr_nature r))
              (select_categories table))
  /\ Permutation (select_categories table)
                 (filter (fun r => is_null (cr_deletedAt r)) table).
Proof.
  intros Hkey. split; [|split; [reflexivity|apply order_by_perm]].
  unfold cats.
  destruct (select_tops_first
              (filter (fun r => is_null (cr_deletedAt r)) table))
    as (P & C & Heq & HP & HC).
  unfold select_categories. rewrite Heq.
  assert (Hnd : NoDup (map cr_id P)).
  { assert (Hall : NoDup (map cr_id (P ++ C)%list)).
    { rewrite <- Heq.
      apply (Permutation_NoDup
               (Permutation_map cr_id
                  (Permutation_sym (order_by_perm by_parent_then_name _)))).
      now apply NoDup_map_filter. }
    rewrite map_app in Hall. now apply NoDup_app_remove_r in Hall. }
  pose proof (cats_tree_of P C HP HC Hnd) as H.
  destruct (fold_left cats_step (P ++ C) ([], [])) as [parents children].
  now rewrite H.
Qed.

Lemma cats_tree_shows_children_of_listed_parents_witness :
  NoDup (map cr_id sample_categories)
  /\ cats false sample_categories
     = Tree (map (fun p => (cr_name p, cr_nature p,
                            kids (cr_id p) (select_categories sample_categories)))
                 (filter (fun r => is_null (cr_parentCategoryId r))
                         (select_categories sample_categories)))
  /\ cats true sample_categories
     = FlatTable
         (map (fun r =>
                 ((if parent_truthy (cr_parentCategoryId r) then "    " else "")
                  ++ cr_name r, cr_nature r))
              (select_categories sample_categories))
  /\ Permutation (select_categories sample_categories)
                 (filter (fun r => is_null (cr_deletedAt r)) sample_categories).
Proof.
  assert (Hkey : NoDup (map cr_id sample_categories))
    by (repeat constructor; simpl; intuition discriminate).
  split; [exact Hkey|].
  apply (cats_tree_shows_children_of_listed_parents sample_categories Hkey).
Defined.

(** On the sample table: Flights (under the soft-deleted Travel) and Fast
    food (under the child Restaurants) are in the flat list only. *)
Example cats_sample :
  cats false sample_categories
  = Tree [ ("Bills", "Must", []);
           ("Food", "Need", [("Groceries", "Need"); ("Restaurants", "Want")]) ]
  /\ cats true sample_categories
     = FlatTable [ ("Bills", "Must"); ("Food", "Need");
                   ("    Groceries", "Need"); ("    Restaurants", "Want");
                   ("    Fast food", "Want"); ("    Flights", "Want") ].
Proof. split; reflexivity. Qed.

(** ** References between the tables *)

Lemma account_id_listed (w : world) (s : string) (i : Z) (n : string) :
  find_account w s = Ok (Some (i, n)) -> In i (map a_id (accounts w)).
Proof.
  intros H. destruct (find_account_sound _ _ _ _ H) as (a & Ha & <- & _).
  now apply in_map.
Qed.

Lemma category_id_listed (w : world) (s : string) (i : Z) (n : string) :
  find_category w s = Ok (Some (i, n)) -> In i (map c_id (categories w)).
Proof.
  intros H. rewrite find_category_in in H. apply find_in_sound in H.
  destruct H as (c & Hc & <- & _). now apply in_map.
Qed.

Lemma resolved_account_listed (w : world) (account : option string) (aid : Z) :
  account_resolves w account aid -> In aid (map a_id (accounts w)).
Proof.
  unfold account_resolves. destruct (truthy account) as [s|]; intros [n H].
  - now apply account_id_listed in H.
  - apply default_account_live in H. destruct H as (a & Ha & <- & _).
    now apply in_map.
Qed.

Lemma resolved_category_listed (w : world) (category : option string)
  (cid : option Z) (c : Z) :
  category_resolves w category cid -> cid = Some c ->
  In c (map c_id (categories w)).
Proof.
  unfold category_resolves. destruct (truthy category) as [s|].
  - intros (i & n & H & ->) Hc. inversion Hc; subst.
    now apply category_id_listed in H.
  - intros (found & H & ->) Hc. destruct found as [[i n]|]; [|discriminate].
    simpl in Hc. inversion Hc; subst.
    apply default_category_live in H. destruct H as (x & Hx & <- & _).
    now apply in_map.
Qed.

Lemma edit_done_refs (w w' : world) (num : Z) (amount : option Q)
  (new_label : option string) (category account : option string)
  (date_str : option string) (is_income : option bool) :
  edit num amount new_label category account date_str is_income w
  = (Ok tt, w') ->
  Forall2
    (fun r r' =>
       (r_accountId r' = r_accountId r
        \/ In (r_accountId r') (map a_id (accounts w)))
       /\ (r_categoryId r' = r_categoryId r
           \/ exists c, r_categoryId r' = Some c
                        /\ In c (map c_id (categories w)))
       /\ r_transferToAccountId r' = r_transferToAccountId r)
    (records w) (records w').
Proof.
  unfold edit.
  destruct (is_null amount && is_null new_label && is_null category
            && is_null account && is_null date_str && is_null is_income);
    [discriminate|].
  unfold bind, get.
  destruct (nth_error (order_by by_createdAt_desc (records w))
                      (Z.to_nat (num - 1))) as [target|].
  2:{ intros H. inversion H; subst.
      rewrite <- (map_id (records w')) at 2.
      apply Forall2_map_self. intros x. repeat split; now left. }
  unfold field, query, ret, raise, datetime_now, update_record.
  destruct amount as [a|]; [destruct (Qle_bool a 0); [discriminate|]|];
  destruct new_label as [l|];
  (destruct category as [c|];
   [destruct (find_category w c) as [[[cid cn]|]|e] eqn:Hc;
    try discriminate; apply category_id_listed in Hc|]);
  (destruct account as [ac|];
   [destruct (find_account w ac) as [[[aid an]|]|e] eqn:Hac;
    try discriminate; apply account_id_listed in Hac|]);
  (destruct date_str as [s|]; [destruct (strptime s); try discriminate|]);
  destruct is_income as [b|];
  intros H; inversion H; subst; clear H;
  (apply Forall2_map_self; intros x;
   destruct (r_id x =? r_id target); simpl;
   repeat split; try (left; reflexivity); try (right; eauto)).
Qed.

(** X22: what the tool writes points to rows that are there.  If every
    record names an account of the account table, a category of the
    category table or none, and a destination account of the account table
    or none, that is still so after [add], [transfer], [edit] and [undo],
    however they end: the ids they store are those of the rows the names
    resolved to. *)
Theorem entries_keep_references (w : world) :
  references_ok w ->
  (forall amount label category account income date_str,
      references_ok (snd (add amount label category account income date_str w)))
  /\ (forall amount label from_account to_account date_str,
        references_ok
          (snd (transfer amount label from_account to_account date_str w)))
  /\ (forall num amount new_label category account date_str is_income,
        references_ok
          (snd (edit num amount new_label category account date_str
                     is_income w)))
  /\ (forall yes answer, references_ok (snd (undo yes answer w))).
Proof.
  unfold references_ok. intros Hok. split; [|split; [|split]].
  - intros amount label category account income date_str.
    destruct (add amount label category account income date_str w)
      as [[[]|e] w'] eqn:H; cbn [snd].
    + apply add_done in H.
      destruct H as (aid & cid & date & now & _ & Hacc & Hcat & _ & Ha & Hc
                     & _ & Hr).
      rewrite Hr, Ha, Hc. apply Forall_app. split; [exact Hok|].
      constructor; [|constructor]. simpl. split; [|split].
      * now apply resolved_account_listed in Hacc.
      * intros c Hcid. now apply (resolved_category_listed _ _ _ _ Hcat).
      * discriminate.
    + apply add_failed in H. now subst.
  - intros amount label from_account to_account date_str.
    destruct (transfer amount label from_account to_account date_str w)
      as [[[]|e] w'] eqn:H; cbn [snd].
    + apply transfer_done in H.
      destruct H as (fi & fn & ti & tn & date & now & _ & Hf & Ht & _ & _
                     & Ha & Hc & _ & Hr).
      rewrite Hr, Ha, Hc. apply Forall_app. split; [exact Hok|].
      constructor; [|constructor]. simpl. split; [|split].
      * now apply account_id_listed in Hf.
      * discriminate.
      * intros t Heq. inversion Heq; subst. now apply account_id_listed in Ht.
    + apply transfer_failed in H. now subst.
  - intros num amount new_label category account date_str is_income.
    destruct (edit num amount new_label category account date_str is_income w)
      as [[[]|e] w'] eqn:H; cbn [snd].
    + pose proof (edit_done_refs _ _ _ _ _ _ _ _ _ H) as Hrefs.
      apply edit_done in H. destruct H as (Ha & Hc & _ & _).
      rewrite Ha, Hc. clear Ha Hc.
      induction Hrefs as [|r r' l l' Hr _ IH]; [constructor|].
      inversion Hok as [|? ? (H1 & H2 & H3) Hl]; subst.
      constructor; [|now apply IH].
      destruct Hr as (Hacc & Hcat & Hto). split; [|split].
      * destruct Hacc as [->|]; assumption.
      * intros c Hcid. destruct Hcat as [Hsame|(c' & Hc' & Hin)].
        -- apply H2. now rewrite <- Hsame.
        -- rewrite Hc' in Hcid. now inversion Hcid; subst.
      * rewrite Hto. exact H3.
    + apply edit_failed in H. now subst.
  - intros yes answer. unfold undo, bind, get_config, get.
    destruct (fetchone (order_by by_createdAt_desc (records w))) as [r|];
      [|exact Hok].
    destruct (negb yes && _ && negb answer); [exact Hok|].
    simpl. apply Forall_forall. intros x Hx. apply filter_In in Hx.
    rewrite Forall_forall in Hok. now apply Hok.
Qed.

Lemma entries_keep_references_witness :
  references_ok household
  /\ references_ok
       (snd (add 50 "Groceries" (Some "food") None false None household))
  /\ references_ok
       (snd (transfer 200 "Buffer" "check" "sav" None household))
  /\ references_ok
       (snd (edit 2 (Some 1600%Q) None (Some "deliv") (Some "sav") None None
                  household))
  /\ references_ok (snd (undo true false household)).
Proof.
  assert (Hok : references_ok household).
  { unfold references_ok. apply Forall_forall.
    intros r [<-|[<-|[<-|[]]]]; simpl;
      (split; [tauto|]); split; intros x Hx; inversion Hx; subst; tauto. }
  split; [exact Hok|].
  destruct (entries_keep_references household Hok) as (Ha & Ht & He & Hu).
  split; [apply Ha|]. split; [apply Ht|]. split; [apply He|apply Hu].
Defined.
